(** * MetricsStore: the per-request metrics buffer of mms/metrics/metrics_store.py

    A shallow embedding of the Python class [MetricsStore] and the properties
    of its six add-operations.  Python objects that are shared by reference
    (the [Metric] objects held both by [store] and by [cache], and the list
    objects that callers pass as [dimensions]) live in an explicit heap, so
    that in-place mutation and aliasing are visible in the model. *)

From Stdlib Require Import ZArith Ascii String List.
From stdpp Require Import base option list gmap strings.

Local Open Scope string_scope.
Local Open Scope list_scope.
Local Open Scope stdpp_scope.

(** ** Python values *)

(** [Dimension(name, value)] of mms/metrics/dimension.py. *)
Record Dimension := mkDimension { dim_name : string; dim_value : string }.

Global Instance Dimension_eq_dec : EqDecision Dimension.
Proof. solve_decision. Defined.

(** The objects a caller can hand over as [dimensions].  A list is passed by
    reference: [PyList r] is the list object named [r]. *)
Inductive PyObj :=
| PyNone
| PyStr (s : string)
| PyInt (z : Z)
| PyTuple (ds : list Dimension)
| PyList (r : nat).

Global Instance PyObj_eq_dec : EqDecision PyObj.
Proof. solve_decision. Defined.

(** What the constructor receives as [request_ids]: [None], one string, or a
    dict from batch index to request id.  A dict is kept in insertion order,
    the order in which [values()] yields. *)
Inductive RequestIds :=
| ReqNone
| ReqStr (s : string)
| ReqDict (d : list (Z * string)).

(** [d[k]] on an insertion-ordered dict; [None] stands for a missing key. *)
Fixpoint dict_get (k : Z) (d : list (Z * string)) : option string :=
  match d with
  | [] => None
  | (k', v) :: d' => if decide (k = k') then Some v else dict_get k d'
  end.

Definition dict_keys (d : list (Z * string)) : list Z := map fst d.
Definition dict_values (d : list (Z * string)) : list string := map snd d.

(** [str(x)] for a value that is [None] or a string. *)
Definition py_str (x : option string) : string :=
  match x with None => "None" | Some s => s end.

Inductive exn :=
| ValueError (msg : string)
| TypeError (msg : string).

Inductive Outcome (A : Type) :=
| Ret (a : A)
| Raise (e : exn).
Arguments Ret {A} a.
Arguments Raise {A} e.

Definition join_none_msg : string :=
  "sequence item 1: expected str instance, NoneType found".
Definition in_string_msg : string :=
  "'in <string>' requires string as left operand, not int".
Definition dimensions_msg : string :=
  "Please provide a list of dimensions".
Definition time_unit_msg : string :=
  "the unit for a timed metric should be one of ['ms', 's']".
Definition size_unit_msg : string :=
  "The unit for size based metric is one of ['MB','kB', 'GB']".

(** [sep.join(items)]: every item has to be a string. *)
Definition str_join (sep : string) (items : list (option string)) : Outcome string :=
  match mapM id items with
  | Some l => Ret (String.concat sep l)
  | None => Raise (TypeError join_none_msg)
  end.

Section Store.

(** The metric values (int, float or str in Python) are only handed on. *)
Variable Value : Type.

(** Modelled from the spec: the [Metric] class (mms/metrics/metric.py) is a
    holder of the six constructor arguments name, value, unit, dimensions,
    request id and aggregation method.  [m_dimensions] is a reference to a
    list object. *)
Record Metric := mkMetric {
  m_name : string;
  m_value : Value;
  m_unit : option string;
  m_dimensions : nat;
  m_request_id : option string;
  m_metrics_method : PyObj }.

(** [Metric.update(value)] and [Dimension.__str__] belong to the
    collaborators; the store uses them as they are.  Both are taken to
    return: what the updated object looks like, and how a dimension is
    written, is left open. *)
Variable Metric_update : Metric -> Value -> Metric.
Variable Dimension_str : Dimension -> string.

(** The fields of a [MetricsStore] together with the two kinds of objects it
    shares with its callers.  A [Metric] object is named by its position in
    [metric_objects]; objects are allocated at the end and never freed.  A
    list object is named by a number; a number that has no entry yet is a
    list to which nothing has been appended. *)
Record World := mkWorld {
  store : list nat;
  request_ids : RequestIds;
  model_name : string;
  cache : gmap string nat;
  metric_objects : list Metric;
  list_objects : gmap nat (list Dimension) }.

(** [MetricsStore(request_ids, model_name)], with the list objects that the
    caller already holds. *)
Definition init (rids : RequestIds) (mn : string)
    (lists : gmap nat (list Dimension)) : World :=
  mkWorld [] rids mn ∅ [] lists.

(** ** Statements: state passing with exceptions

    A raised exception does not roll anything back: the world at the point
    of the [raise] is what the caller is left with. *)
Definition M (A : Type) : Type := World -> Outcome A * World.

Definition raise {A} (e : exn) : M A := fun w => (Raise e, w).

Global Instance M_ret : MRet M := fun _ a w => (Ret a, w).
Global Instance M_bind : MBind M := fun _ _ k m w =>
  match m w with
  | (Ret a, w') => k a w'
  | (Raise e, w') => (Raise e, w')
  end.

Definition lift {A} (o : Outcome A) : M A := fun w => (o, w).

Definition get : M World := fun w => (Ret w, w).

(** The items of the list object [r]. *)
Definition items_of (lists : gmap nat (list Dimension)) (r : nat) : list Dimension :=
  default [] (lists !! r).

(** [list()]: a new, empty list object *)
Definition new_list : M nat := fun w =>
  let r := fresh (dom (list_objects w)) in
  (Ret r,
   mkWorld (store w) (request_ids w) (model_name w) (cache w)
           (metric_objects w) (<[r := []]> (list_objects w))).

(** [l.append(d)] on the list object [r] *)
Definition list_append (r : nat) (d : Dimension) : M () := fun w =>
  (Ret (),
   mkWorld (store w) (request_ids w) (model_name w) (cache w)
           (metric_objects w)
           (<[r := items_of (list_objects w) r ++ [d]]> (list_objects w))).

Definition list_items (r : nat) : M (list Dimension) := fun w =>
  (Ret (items_of (list_objects w) r), w).

(** [Metric(...)]: a new object *)
Definition new_metric (m : Metric) : M nat := fun w =>
  (Ret (length (metric_objects w)),
   mkWorld (store w) (request_ids w) (model_name w) (cache w)
           (metric_objects w ++ [m]) (list_objects w)).

(** [self.store.append(metric)] *)
Definition store_append (metric : nat) : M () := fun w =>
  (Ret (),
   mkWorld (store w ++ [metric]) (request_ids w) (model_name w) (cache w)
           (metric_objects w) (list_objects w)).

(** [self.cache[key] = metric] *)
Definition cache_set (key : string) (metric : nat) : M () := fun w =>
  (Ret (),
   mkWorld (store w) (request_ids w) (model_name w) (<[key := metric]> (cache w))
           (metric_objects w) (list_objects w)).

(** [metric.update(value)] on the object [metric] *)
Definition update (metric : nat) (value : Value) : M () := fun w =>
  (Ret (),
   mkWorld (store w) (request_ids w) (model_name w) (cache w)
           (alter (fun m => Metric_update m value) metric (metric_objects w))
           (list_objects w)).

(** ** The methods of [MetricsStore] *)

(** Lines 62-63: the key under which a metric is cached. *)
Definition dim_str (name : string) (unit : option string)
    (req_id : option string) (dimensions : list Dimension) : Outcome string :=
  str_join "-" ([Some name; unit; Some (py_str req_id)]
                ++ map (fun d => Some (Dimension_str d)) dimensions).

Definition _add_or_update (name : string) (value : Value)
    (req_id : option string) (unit : option string)
    (metrics_method : PyObj) (dimensions : PyObj) : M () :=
  dimensions ←
    match dimensions with
    | PyNone => new_list
    | PyList r => mret r
    | _ => raise (ValueError dimensions_msg)
    end;
  w ← get;
  (if req_id is Some _ then
     list_append dimensions (mkDimension "ModelName" (model_name w));;
     list_append dimensions (mkDimension "Level" "Model")
   else mret ());;
  (if req_id is None then
     list_append dimensions (mkDimension "Level" "Error")
   else mret ());;
  items ← list_items dimensions;
  key ← lift (dim_str name unit req_id items);
  w ← get;
  match cache w !! key with
  | None =>
      metric ← new_metric (mkMetric name value unit dimensions req_id metrics_method);
      store_append metric;;
      cache_set key metric
  | Some metric => update metric value
  end.

Definition _get_req (idx : option Z) : M (option string) :=
  w ← get;
  let req_id :=
    match request_ids w with
    | ReqDict d => Some (String.concat "," (dict_values d))
    | ReqStr s => Some s
    | ReqNone => None
    end in
  match idx, request_ids w with
  | Some i, ReqDict d =>
      match dict_get i d with
      | Some v => mret (Some v)
      | None => mret req_id
      end
  | Some i, ReqStr s => raise (TypeError in_string_msg)
  | _, _ => mret req_id
  end.

Definition add_counter (name : string) (value : Value) (idx : option Z)
    (dimensions : PyObj) : M () :=
  let unit := Some "count" in
  req_id ← _get_req idx;
  _add_or_update name value req_id unit (PyStr "counter") dimensions.

(** From here on the source passes [dimensions] as the fifth positional
    argument of [_add_or_update], which is [metrics_method]; the parameter
    [dimensions] keeps its default [None]. *)
Definition add_time (name : string) (value : Value) (idx : option Z)
    (unit : option string) (dimensions : PyObj) : M () :=
  if bool_decide (unit ∉ [Some "ms"; Some "s"]) then
    raise (ValueError time_unit_msg)
  else
    req_id ← _get_req idx;
    _add_or_update name value req_id unit dimensions PyNone.

Definition add_size (name : string) (value : Value) (idx : option Z)
    (unit : option string) (dimensions : PyObj) : M () :=
  if bool_decide (unit ∉ [Some "MB"; Some "kB"; Some "GB"]) then
    raise (ValueError size_unit_msg)
  else
    req_id ← _get_req idx;
    _add_or_update name value req_id unit dimensions PyNone.

Definition add_percent (name : string) (value : Value) (idx : option Z)
    (dimensions : PyObj) : M () :=
  let unit := Some "percent" in
  req_id ← _get_req idx;
  _add_or_update name value req_id unit dimensions PyNone.

Definition add_error (name : string) (value : Value)
    (dimensions : PyObj) : M () :=
  let unit := Some EmptyString in
  _add_or_update name value None unit dimensions PyNone.

Definition add_metric (name : string) (value : Value) (idx : option Z)
    (unit : option string) (dimensions : PyObj) : M () :=
  req_id ← _get_req idx;
  _add_or_update name value req_id unit dimensions PyNone.

(** ** Calls and sequences of calls *)

Inductive Call :=
| AddCounter (name : string) (value : Value) (idx : option Z) (dimensions : PyObj)
| AddTime (name : string) (value : Value) (idx : option Z)
    (unit : option string) (dimensions : PyObj)
| AddSize (name : string) (value : Value) (idx : option Z)
    (unit : option string) (dimensions : PyObj)
| AddPercent (name : string) (value : Value) (idx : option Z) (dimensions : PyObj)
| AddError (name : string) (value : Value) (dimensions : PyObj)
| AddMetric (name : string) (value : Value) (idx : option Z)
    (unit : option string) (dimensions : PyObj).

Definition exec (c : Call) : M () :=
  match c with
  | AddCounter name value idx dimensions => add_counter name value idx dimensions
  | AddTime name value idx unit dimensions => add_time name value idx unit dimensions
  | AddSize name value idx unit dimensions => add_size name value idx unit dimensions
  | AddPercent name value idx dimensions => add_percent name value idx dimensions
  | AddError name value dimensions => add_error name value dimensions
  | AddMetric name value idx unit dimensions => add_metric name value idx unit dimensions
  end.

(** The [idx] argument of a call; [add_error] has none. *)
Definition call_idx (c : Call) : option (option Z) :=
  match c with
  | AddCounter _ _ idx _ | AddTime _ _ idx _ _ | AddSize _ _ idx _ _
  | AddPercent _ _ idx _ | AddMetric _ _ idx _ _ => Some idx
  | AddError _ _ _ => None
  end.

(** The world after a sequence of calls.  A call that raises leaves the
    world as it was at the [raise], and the caller goes on. *)
Definition run (cs : list Call) (w : World) : World :=
  fold_left (fun w c => snd (exec c w)) cs w.

(** ** Vocabulary of the properties *)

(** The dimensions that the store appends by itself. *)
Definition tags (req_id : option string) (mn : string) : list Dimension :=
  match req_id with
  | Some _ => [mkDimension "ModelName" mn; mkDimension "Level" "Model"]
  | None => [mkDimension "Level" "Error"]
  end.

(** The composite key of name, unit, request id and the dimensions in order. *)
Definition cache_key (name unit : string) (req_id : option string)
    (dimensions : list Dimension) : string :=
  String.concat "-" (name :: unit :: py_str req_id :: map Dimension_str dimensions).

(** The key that [_add_or_update] computes for its arguments in world [w],
    if it gets as far as computing one. *)
Definition key_of (name : string) (unit : option string)
    (req_id : option string) (dimensions : PyObj) (w : World) : option string :=
  match unit, dimensions with
  | Some u, PyNone =>
      Some (cache_key name u req_id (tags req_id (model_name w)))
  | Some u, PyList r =>
      Some (cache_key name u req_id
              (items_of (list_objects w) r ++ tags req_id (model_name w)))
  | _, _ => None
  end.

Definition resolved (idx : option Z) (w : World) : option (option string) :=
  match fst (_get_req idx w) with Ret req_id => Some req_id | Raise _ => None end.

(** The request id that a call hands to [_add_or_update]: the one resolved
    from its index, and [None] for [add_error].  The outer [None] stands for
    a resolution that raises. *)
Definition call_req (c : Call) (w : World) : option (option string) :=
  match c with
  | AddCounter _ _ idx _ | AddTime _ _ idx _ _ | AddSize _ _ idx _ _
  | AddPercent _ _ idx _ | AddMetric _ _ idx _ _ => resolved idx w
  | AddError _ _ _ => Some None
  end.

Definition call_name (c : Call) : string :=
  match c with
  | AddCounter name _ _ _ | AddTime name _ _ _ _ | AddSize name _ _ _ _
  | AddPercent name _ _ _ | AddError name _ _ | AddMetric name _ _ _ _ => name
  end.

(** The unit that a call hands to [_add_or_update]. *)
Definition call_unit (c : Call) : option string :=
  match c with
  | AddCounter _ _ _ _ => Some "count"
  | AddPercent _ _ _ _ => Some "percent"
  | AddError _ _ _ => Some EmptyString
  | AddTime _ _ _ unit _ | AddSize _ _ _ unit _ | AddMetric _ _ _ unit _ => unit
  end.

(** The key of a call: [None] when the call raises. *)
Definition call_key (c : Call) (w : World) : option string :=
  match c with
  | AddCounter name _ idx dimensions =>
      req_id ← resolved idx w; key_of name (Some "count") req_id dimensions w
  | AddTime name _ idx unit _ =>
      if bool_decide (unit ∈ [Some "ms"; Some "s"]) then
        req_id ← resolved idx w; key_of name unit req_id PyNone w
      else None
  | AddSize name _ idx unit _ =>
      if bool_decide (unit ∈ [Some "MB"; Some "kB"; Some "GB"]) then
        req_id ← resolved idx w; key_of name unit req_id PyNone w
      else None
  | AddPercent name _ idx _ =>
      req_id ← resolved idx w; key_of name (Some "percent") req_id PyNone w
  | AddError name _ _ =>
      key_of name (Some EmptyString) None PyNone w
  | AddMetric name _ idx unit _ =>
      req_id ← resolved idx w; key_of name unit req_id PyNone w
  end.

(** The keys of the calls of a sequence that do not raise, in call order. *)
Fixpoint keys (cs : list Call) (w : World) : list string :=
  match cs with
  | [] => []
  | c :: cs' =>
      match call_key c w with
      | Some k => k :: keys cs' (snd (exec c w))
      | None => keys cs' (snd (exec c w))
      end
  end.

(** No character of [s] is the separator of the key. *)
Fixpoint no_sep (s : string) : bool :=
  match s with
  | EmptyString => true
  | String c s' => negb (Ascii.eqb c "-"%char) && no_sep s'
  end.

(** One more key: it goes to the end unless it has been seen. *)
Definition see (seen : list string) (k : string) : list string :=
  if decide (k ∈ seen) then seen else seen ++ [k].

(** The distinct elements of [ks], each at the place of its first
    occurrence. *)
Definition first_occurrences (ks : list string) : list string :=
  fold_left see ks [].

(** The keys for which a sequence of calls constructs a [Metric] object: one
    entry for every construction. *)
Fixpoint created_keys (cs : list Call) (w : World) : list string :=
  match cs with
  | [] => []
  | c :: cs' =>
      match call_key c w with
      | Some k =>
          if cache w !! k is None then k :: created_keys cs' (snd (exec c w))
          else created_keys cs' (snd (exec c w))
      | None => created_keys cs' (snd (exec c w))
      end
  end.

(** The [Metric] objects that a call constructs, as constructed. *)
Definition allocated_by (c : Call) (w : World) : list Metric :=
  drop (length (metric_objects w)) (metric_objects (snd (exec c w))).

Fixpoint allocated (cs : list Call) (w : World) : list Metric :=
  match cs with
  | [] => []
  | c :: cs' => allocated_by c w ++ allocated cs' (snd (exec c w))
  end.

(** What one call does to [store], [cache] and the [Metric] objects, by the
    key it computes: it raises before any of them is written, or it
    constructs one [Metric] under a key that is not cached, or it forwards
    [value] to the [Metric] cached under the key. *)
Inductive Effect (w : World) (value : Value) :
    option string -> Outcome () -> World -> Prop :=
| Raised e w' :
    store w' = store w ->
    cache w' = cache w ->
    metric_objects w' = metric_objects w ->
    Effect w value None (Raise e) w'
| Created k m w' :
    cache w !! k = None ->
    is_Some (m_unit m) ->
    store w' = store w ++ [length (metric_objects w)] ->
    cache w' = <[k := length (metric_objects w)]> (cache w) ->
    metric_objects w' = metric_objects w ++ [m] ->
    Effect w value (Some k) (Ret ()) w'
| Updated k metric w' :
    cache w !! k = Some metric ->
    store w' = store w ->
    cache w' = cache w ->
    metric_objects w' =
      alter (fun m => Metric_update m value) metric (metric_objects w) ->
    Effect w value (Some k) (Ret ()) w'.

Definition call_value (c : Call) : Value :=
  match c with
  | AddCounter _ value _ _ | AddTime _ value _ _ _ | AddSize _ value _ _ _
  | AddPercent _ value _ _ | AddError _ value _ | AddMetric _ value _ _ _ => value
  end.

(** [store], [cache] and the [Metric] objects agree with the list [ks] of
    the keys seen so far: the i-th key is cached for the i-th element of
    [store], which is the i-th [Metric] object, and nothing else is cached. *)
Record consistent (w : World) (ks : list string) : Prop := {
  consistent_store : store w = seq 0 (length (metric_objects w));
  consistent_keys : Forall2 (fun k metric => cache w !! k = Some metric) ks (store w);
  consistent_dom : forall k, k ∈ ks <-> is_Some (cache w !! k);
  consistent_NoDup : NoDup ks }.

End Store.

Arguments mkMetric {Value}.
Arguments m_name {Value}.
Arguments m_value {Value}.
Arguments m_unit {Value}.
Arguments m_dimensions {Value}.
Arguments m_request_id {Value}.
Arguments m_metrics_method {Value}.
Arguments mkWorld {Value}.
Arguments store {Value}.
Arguments request_ids {Value}.
Arguments model_name {Value}.
Arguments cache {Value}.
Arguments metric_objects {Value}.
Arguments list_objects {Value}.
Arguments init {Value}.
Arguments _get_req {Value}.
Arguments resolved {Value}.
Arguments cache_key : simpl never.
Arguments key_of : simpl never.
Arguments _add_or_update : simpl never.
Arguments _get_req : simpl never.

(** ** A sample instance of the collaborators

    [Metric.update] adds to a counter and replaces any other value;
    [str(Dimension)] writes name and value with a colon between them. *)
Definition sample_update (m : Metric Z) (value : Z) : Metric Z :=
  mkMetric (m_name m)
    (if decide (m_metrics_method m = PyStr "counter") then (m_value m + value)%Z
     else value)
    (m_unit m) (m_dimensions m) (m_request_id m) (m_metrics_method m).

Definition sample_str (d : Dimension) : string :=
  dim_name d +:+ ":" +:+ dim_value d.

(** Two stores for the evaluations below. *)
Definition batch {Value : Type} : World Value :=
  init (ReqDict [(0%Z, "A"); (1%Z, "B")]) "resnet" ∅.

(** A store whose caller holds two list objects with the same two dimensions
    in the two orders. *)
Definition two_orders {Value : Type} : World Value :=
  init (ReqDict [(0%Z, "A"); (1%Z, "B")]) "resnet"
    (<[0 := [mkDimension "k1" "v1"; mkDimension "k2" "v2"]]>
       (<[1 := [mkDimension "k2" "v2"; mkDimension "k1" "v1"]]> ∅)).

(** ** Properties *)

Section Properties.

Context {Value : Type}.
Variable Metric_update : Metric Value -> Value -> Metric Value.
Variable Dimension_str : Dimension -> string.

Local Abbreviation _add_or_update := (_add_or_update Value Metric_update Dimension_str).
Local Abbreviation add_counter := (add_counter Value Metric_update Dimension_str).
Local Abbreviation add_time := (add_time Value Metric_update Dimension_str).
Local Abbreviation add_size := (add_size Value Metric_update Dimension_str).
Local Abbreviation add_percent := (add_percent Value Metric_update Dimension_str).
Local Abbreviation add_error := (add_error Value Metric_update Dimension_str).
Local Abbreviation add_metric := (add_metric Value Metric_update Dimension_str).
Local Abbreviation exec := (exec Value Metric_update Dimension_str).
Local Abbreviation run := (run Value Metric_update Dimension_str).
Local Abbreviation dim_str := (dim_str Dimension_str).
Local Abbreviation cache_key := (cache_key Dimension_str).
Local Abbreviation key_of := (key_of Value Dimension_str).
Local Abbreviation call_key := (call_key Value Dimension_str).
Local Abbreviation keys := (keys Value Metric_update Dimension_str).
Local Abbreviation created_keys := (created_keys Value Metric_update Dimension_str).
Local Abbreviation allocated := (allocated Value Metric_update Dimension_str).
Local Abbreviation allocated_by := (allocated_by Value Metric_update Dimension_str).
Local Abbreviation Effect := (Effect Value Metric_update).
Local Abbreviation consistent := (consistent Value).

Implicit Types (w : World Value) (name : string) (value : Value)
  (idx : option Z) (unit req_id : option string) (dimensions : PyObj).

Ltac step :=
  unfold mbind, M_bind, mret, M_ret, raise, lift, get, new_list, list_append,
    list_items, new_metric, store_append, cache_set, update; cbn.

Lemma dim_str_Some name u req_id (ds : list Dimension) :
  dim_str name (Some u) req_id ds = Ret (cache_key name u req_id ds).
Proof.
  unfold dim_str, str_join, cache_key. cbn.
  assert (mapM id (map (fun d => Some (Dimension_str d)) ds)
          = Some (map Dimension_str ds)) as ->; [|done].
  induction ds as [|d ds IH]; cbn; [done|]. by rewrite IH.
Qed.

Lemma dim_str_None name req_id (ds : list Dimension) :
  dim_str name None req_id ds = Raise (TypeError join_none_msg).
Proof. reflexivity. Qed.

Lemma items_of_insert (h : gmap nat (list Dimension)) (r : nat) (l : list Dimension) :
  items_of (<[r := l]> h) r = l.
Proof. unfold items_of. by rewrite lookup_insert_eq. Qed.

(** *** Request-id resolution *)

Lemma get_req_world idx w : snd (_get_req idx w) = w.
Proof.
  unfold _get_req. step.
  destruct idx as [i|], (request_ids w) as [|s|d]; cbn; try done.
  by destruct (dict_get i d).
Qed.

Lemma get_req_pair idx w : _get_req idx w = (fst (_get_req idx w), w).
Proof. rewrite <- (get_req_world idx w) at 3. by destruct (_get_req idx w). Qed.

Lemma bind_get_req {A} idx (k : option string -> M Value A) w :
  (_get_req idx ≫= k) w =
    match fst (_get_req idx w) with
    | Ret req_id => k req_id w
    | Raise e => (Raise e, w)
    end.
Proof.
  unfold mbind, M_bind. rewrite (get_req_pair idx w). cbn.
  by destruct (fst (_get_req idx w)).
Qed.

(** *** The effect of one call *)

Lemma add_or_update_effect name value req_id unit metrics_method dimensions w :
  Effect w value (key_of name unit req_id dimensions w)
    (fst (_add_or_update name value req_id unit metrics_method dimensions w))
    (snd (_add_or_update name value req_id unit metrics_method dimensions w)).
Proof.
  unfold _add_or_update, key_of.
  destruct dimensions, req_id, unit; step.
  all: rewrite ?items_of_insert, ?insert_insert_eq, ?dim_str_Some, ?dim_str_None; cbn.
  all: try (by constructor).
  all: rewrite <- ?app_assoc; cbn.
  all: destruct (cache w !! _) eqn:Hc; cbn.
  all: by econstructor; eauto.
Qed.

Lemma add_or_update_frame name value req_id unit metrics_method dimensions w :
  request_ids (snd (_add_or_update name value req_id unit metrics_method dimensions w))
    = request_ids w /\
  model_name (snd (_add_or_update name value req_id unit metrics_method dimensions w))
    = model_name w.
Proof.
  unfold _add_or_update.
  destruct dimensions, req_id, unit; step; rewrite ?dim_str_Some, ?dim_str_None; cbn.
  all: try done.
  all: by destruct (cache w !! _).
Qed.

Lemma exec_effect (c : Call Value) w :
  Effect w (call_value Value c) (call_key c w) (fst (exec c w)) (snd (exec c w)).
Proof.
  destruct c; cbn; unfold add_counter, add_time, add_size, add_percent,
    add_error, add_metric, resolved.
  all: repeat case_bool_decide; try tauto; try (by constructor).
  all: rewrite ?bind_get_req.
  all: try (destruct (fst (_get_req idx w)); cbn; [|by constructor]).
  all: apply add_or_update_effect.
Qed.

(** *** The store, the cache and the [Metric] objects stay consistent *)

Lemma see_old (ks : list string) (k : string) : k ∈ ks -> see ks k = ks.
Proof. intros Hk. unfold see. by rewrite decide_True. Qed.

Lemma see_new (ks : list string) (k : string) : k ∉ ks -> see ks k = ks ++ [k].
Proof. intros Hk. unfold see. by rewrite decide_False. Qed.

Lemma consistent_init rids mn lists : consistent (init rids mn lists) [].
Proof.
  split; cbn; [done|constructor| |constructor].
  intros k. rewrite lookup_empty. split; [by intros ?%elem_of_nil|by intros [? ?]].
Qed.

Lemma consistent_not_cached w ks k :
  consistent w ks -> cache w !! k = None -> k ∉ ks.
Proof.
  intros Hw Hk Hin. apply (consistent_dom _ _ _ Hw) in Hin as [l Hl]. congruence.
Qed.

Lemma consistent_cached w ks k metric :
  consistent w ks -> cache w !! k = Some metric -> k ∈ ks.
Proof. intros Hw Hk. apply (consistent_dom _ _ _ Hw). by exists metric. Qed.

Lemma cached_insert (m : gmap string nat) (ks : list string) (st : list nat)
    (k : string) (metric : nat) :
  k ∉ ks ->
  Forall2 (fun k0 l => m !! k0 = Some l) ks st ->
  Forall2 (fun k0 l => <[k := metric]> m !! k0 = Some l) ks st.
Proof.
  intros Hk H. induction H as [|k0 l ks st Hkl H IH]; constructor.
  - rewrite lookup_insert_ne; [done|]. intros ->. apply Hk. by left.
  - apply IH. intros Hin. apply Hk. by right.
Qed.

Lemma effect_consistent w value ko o w' ks :
  Effect w value ko o w' -> consistent w ks ->
  consistent w' (match ko with Some k => see ks k | None => ks end).
Proof.
  intros He Hw. destruct He as [e w' Hs Hc Hm | k m w' Hk _ Hs Hc Hm | k l w' Hk Hs Hc Hm].
  - destruct Hw as [H1 H2 H3 H4]. split; rewrite ?Hs, ?Hc, ?Hm; done.
  - pose proof (consistent_not_cached _ _ _ Hw Hk) as Hnew.
    rewrite (see_new _ _ Hnew). destruct Hw as [H1 H2 H3 H4].
    split; rewrite ?Hs, ?Hc, ?Hm.
    + rewrite length_app, H1. cbn. by rewrite Nat.add_1_r, seq_S.
    + apply Forall2_app.
      * by apply cached_insert.
      * constructor; [|constructor]. by rewrite lookup_insert_eq.
    + intros k0. rewrite elem_of_app, list_elem_of_singleton, H3.
      destruct (decide (k = k0)) as [->|Hne].
      * rewrite lookup_insert_eq. split; [by eexists|by right].
      * rewrite lookup_insert_ne by done. split; [intros [?|?]; [done|congruence]|by left].
    + apply NoDup_app. split; [done|]. split; [|apply NoDup_singleton].
      intros k0 Hk0 ->%list_elem_of_singleton. by apply Hnew.
  - rewrite (see_old _ _ (consistent_cached _ _ _ _ Hw Hk)).
    destruct Hw as [H1 H2 H3 H4].
    split; rewrite ?Hs, ?Hc, ?Hm, ?length_alter; done.
Qed.

Lemma consistent_exec w ks (c : Call Value) :
  consistent w ks ->
  consistent (snd (exec c w))
    (match call_key c w with Some k => see ks k | None => ks end).
Proof. apply effect_consistent with (call_value Value c) (fst (exec c w)), exec_effect. Qed.

Lemma consistent_run (cs : list (Call Value)) w ks :
  consistent w ks -> consistent (run cs w) (fold_left see (keys cs w) ks).
Proof.
  revert w ks. induction cs as [|c cs IH]; intros w ks Hw; [done|].
  pose proof (consistent_exec w ks c Hw) as Hstep. cbn.
  destruct (call_key c w) as [k|]; cbn; by apply IH.
Qed.

Lemma seen_created (cs : list (Call Value)) w ks :
  consistent w ks -> fold_left see (keys cs w) ks = ks ++ created_keys cs w.
Proof.
  revert w ks. induction cs as [|c cs IH]; intros w ks Hw; cbn.
  { by rewrite app_nil_r. }
  pose proof (consistent_exec w ks c Hw) as Hstep.
  destruct (call_key c w) as [k|]; cbn; [|by apply IH].
  rewrite (IH _ _ Hstep). destruct (cache w !! k) as [l|] eqn:Hk.
  - by rewrite (see_old _ _ (consistent_cached _ _ _ _ Hw Hk)).
  - rewrite (see_new _ _ (consistent_not_cached _ _ _ Hw Hk)).
    by rewrite <- app_assoc.
Qed.

Lemma consistent_size w ks : consistent w ks -> size (cache w) = length ks.
Proof.
  intros [_ _ H3 H4]. rewrite <- size_dom, <- (size_list_to_set (C := gset string) ks H4).
  f_equal. apply set_eq. intros k. by rewrite elem_of_dom, elem_of_list_to_set, H3.
Qed.

Lemma consistent_cache_in_store w ks :
  consistent w ks -> map_Forall (fun _ metric => metric ∈ store w) (cache w).
Proof.
  intros Hw k l Hk. pose proof (consistent_cached _ _ _ _ Hw Hk) as Hin.
  apply list_elem_of_lookup in Hin as [i Hi].
  destruct (Forall2_lookup_l _ _ _ _ _ (consistent_keys _ _ _ Hw) Hi) as (l' & Hl' & Hkl').
  rewrite Hk in Hkl'. injection Hkl' as <-. apply list_elem_of_lookup. by exists i.
Qed.

(** *** What a call returns *)

Lemma add_or_update_outcome name value req_id unit metrics_method dimensions w :
  fst (_add_or_update name value req_id unit metrics_method dimensions w) =
    match dimensions, unit with
    | (PyNone | PyList _), Some _ => Ret ()
    | (PyNone | PyList _), None => Raise (TypeError join_none_msg)
    | _, _ => Raise (ValueError dimensions_msg)
    end.
Proof.
  unfold _add_or_update.
  destruct dimensions, req_id, unit; step; rewrite ?dim_str_Some, ?dim_str_None; cbn.
  all: try done.
  all: by destruct (cache w !! _).
Qed.

Lemma get_req_outcome idx w :
  fst (_get_req idx w) =
    match idx, request_ids w with
    | Some i, ReqDict d =>
        Ret (Some (default (String.concat "," (dict_values d)) (dict_get i d)))
    | Some i, ReqStr s => Raise (TypeError in_string_msg)
    | None, ReqDict d => Ret (Some (String.concat "," (dict_values d)))
    | None, ReqStr s => Ret (Some s)
    | _, ReqNone => Ret None
    end.
Proof.
  unfold _get_req. step.
  destruct idx as [i|], (request_ids w) as [|s|d]; cbn; try done.
  by destruct (dict_get i d).
Qed.

Lemma dict_get_None (k : Z) (d : list (Z * string)) :
  dict_get k d = None <-> k ∉ dict_keys d.
Proof.
  induction d as [|[k' v] d IH]; cbn.
  - split; [intros _ ?%elem_of_nil; done|done].
  - rewrite not_elem_of_cons. destruct (decide (k = k')) as [->|Hne].
    + split; [done|]. by intros [? _].
    + rewrite IH. tauto.
Qed.

Lemma dict_get_Some (k : Z) (d : list (Z * string)) (v : string) :
  dict_get k d = Some v -> (k, v) ∈ d.
Proof.
  induction d as [|[k' v'] d IH]; cbn; [done|].
  destruct (decide (k = k')) as [->|Hne].
  - intros [= ->]. by left.
  - intros H. right. by apply IH.
Qed.

(** ** Request-id resolution *)

(** C7. When [request_ids] is a mapping from batch index to id, resolving a
    request id returns the mapped id if [idx] is given and is a key of the
    mapping; if [idx] is absent or is not a key, it returns the values of
    the mapping joined with commas.  The world is left as it is. *)
Theorem get_req_mapping (d : list (Z * string)) idx w :
  request_ids w = ReqDict d ->
  (forall i, idx = Some i -> i ∈ dict_keys d ->
     exists v, dict_get i d = Some v /\ (i, v) ∈ d /\
               _get_req idx w = (Ret (Some v), w)) /\
  (idx = None \/ (exists i, idx = Some i /\ i ∉ dict_keys d) ->
     _get_req idx w = (Ret (Some (String.concat "," (dict_values d))), w)).
Proof.
  intros Hd. rewrite (get_req_pair idx w), get_req_outcome, Hd. split.
  - intros i -> Hin. destruct (dict_get i d) as [v|] eqn:Hv.
    + exists v. by apply dict_get_Some in Hv as Hv'.
    + by apply dict_get_None in Hv.
  - intros [->|(i & -> & Hi)]; [done|].
    by rewrite (proj2 (dict_get_None i d) Hi).
Qed.

(** C3, as the code has it.  When [request_ids] is a plain string, a call
    without [idx] resolves the request id to that string unchanged.  With an
    integer [idx] the test [idx in self.request_ids] is a substring test on
    a string and raises a [TypeError]: no request id is resolved, and every
    add-call that was given the index fails with the world as it was. *)
Theorem get_req_string (s : string) w :
  request_ids w = ReqStr s ->
  _get_req None w = (Ret (Some s), w) /\
  (forall i, _get_req (Some i) w = (Raise (TypeError in_string_msg), w)) /\
  (forall (c : Call Value) i,
     call_idx Value c = Some (Some i) -> exists e, exec c w = (Raise e, w)).
Proof.
  intros Hs. split; [|split].
  - by rewrite (get_req_pair None w), get_req_outcome, Hs.
  - intros i. by rewrite (get_req_pair (Some i) w), get_req_outcome, Hs.
  - intros c i Hc. destruct c; cbn in Hc; simplify_eq; cbn;
      unfold add_counter, add_time, add_size, add_percent, add_metric.
    all: repeat case_bool_decide; try (by eexists).
    all: rewrite bind_get_req, get_req_outcome, Hs; by eexists.
Qed.

(** ** Validation of the unit *)

(** C6. [add_time] fails with the invalid-unit error exactly when its unit
    is not one of ms and s, and [add_size] exactly when its unit is not one
    of MB, kB and GB.  On such a failure the world is the one before the
    call: nothing is appended to [store] and nothing is added to [cache]. *)
Theorem unit_validation name value idx unit dimensions w :
  (fst (add_time name value idx unit dimensions w) = Raise (ValueError time_unit_msg)
     <-> unit ∉ [Some "ms"; Some "s"]) /\
  (fst (add_size name value idx unit dimensions w) = Raise (ValueError size_unit_msg)
     <-> unit ∉ [Some "MB"; Some "kB"; Some "GB"]) /\
  (unit ∉ [Some "ms"; Some "s"] ->
     add_time name value idx unit dimensions w = (Raise (ValueError time_unit_msg), w)) /\
  (unit ∉ [Some "MB"; Some "kB"; Some "GB"] ->
     add_size name value idx unit dimensions w = (Raise (ValueError size_unit_msg), w)).
Proof.
  unfold add_time, add_size. repeat split.
  all: repeat case_bool_decide; try done.
  all: rewrite bind_get_req, get_req_outcome.
  all: intros Hr; exfalso; revert Hr.
  all: destruct idx, (request_ids w); cbn; try done.
  all: rewrite add_or_update_outcome.
  all: by destruct unit.
Qed.

(** ** A metric without a unit *)

Lemma allocated_by_unit (c : Call Value) w :
  Forall (fun m => is_Some (m_unit m)) (allocated_by c w).
Proof.
  unfold allocated_by.
  destruct (exec_effect c w) as [e w' _ _ Hm | k m w' _ Hu _ _ Hm | k l w' _ _ _ Hm];
    rewrite Hm.
  - by rewrite drop_all.
  - rewrite drop_app_length. by constructor.
  - rewrite drop_ge; [done|]. by rewrite length_alter.
Qed.

(** C10. [add_metric] without a unit always raises: if the request id is
    resolved, the [TypeError] comes from joining [None] into the key.
    [store], [cache] and the [Metric] objects are as before the call, and no
    call of any kind ever constructs a [Metric] whose unit is absent. *)
Theorem add_metric_without_unit name value idx dimensions w :
  (exists e, fst (add_metric name value idx None dimensions w) = Raise e) /\
  fst (add_metric name value idx None dimensions w) =
    match fst (_get_req idx w) with
    | Ret _ => Raise (TypeError join_none_msg)
    | Raise e => Raise e
    end /\
  store (snd (add_metric name value idx None dimensions w)) = store w /\
  cache (snd (add_metric name value idx None dimensions w)) = cache w /\
  metric_objects (snd (add_metric name value idx None dimensions w)) = metric_objects w /\
  (forall (cs : list (Call Value)) w0,
     Forall (fun m => is_Some (m_unit m)) (allocated cs w0)).
Proof.
  assert (fst (add_metric name value idx None dimensions w) =
    match fst (_get_req idx w) with
    | Ret _ => Raise (TypeError join_none_msg)
    | Raise e => Raise e
    end) as Ho.
  { unfold add_metric. rewrite bind_get_req.
    destruct (fst (_get_req idx w)); [|done]. by rewrite add_or_update_outcome. }
  split; [|split; [exact Ho|]].
  { rewrite Ho. destruct (fst (_get_req idx w)); by eexists. }
  pose proof (exec_effect (AddMetric Value name value idx None dimensions) w) as He.
  cbn in He. rewrite Ho in He.
  repeat split.
  1-3: destruct (fst (_get_req idx w)); by inversion He.
  intros cs. induction cs as [|c cs IH]; intros w0; cbn; [done|].
  apply Forall_app. split; [apply allocated_by_unit|apply IH].
Qed.

(** ** Deduplication *)

Lemma exec_store_prefix (c : Call Value) w :
  store (snd (exec c w)) = store w \/
  store (snd (exec c w)) = store w ++ [length (metric_objects w)].
Proof. destruct (exec_effect c w); auto. Qed.

Lemma run_cons (c : Call Value) (cs : list (Call Value)) w :
  run (c :: cs) w = run cs (snd (exec c w)).
Proof. reflexivity. Qed.

Lemma run_store_prefix (cs : list (Call Value)) w :
  store w `prefix_of` store (run cs w).
Proof.
  revert w. induction cs as [|c cs IH]; intros w; [done|].
  rewrite run_cons. etrans; [|apply IH].
  destruct (exec_store_prefix c w) as [-> | ->]; [done|by apply prefix_app_r].
Qed.

(** C5. Along every sequence of add-calls on a new store, a [Metric] object
    is constructed at most once per composite key: the keys of the
    constructions are pairwise distinct, there are as many of them as
    [Metric] objects, and the i-th of them is cached for the i-th element of
    [store].  Every cache value is an element of [store], and the cache has
    as many entries as [store] has elements.  A call whose key is cached
    constructs nothing and appends nothing: it forwards its value to the
    [update] of the [Metric] cached under the key. *)
Theorem dedup rids mn lists (cs : list (Call Value)) :
  let w0 := init rids mn lists in
  let w := run cs w0 in
  NoDup (created_keys cs w0) /\
  length (metric_objects w) = length (created_keys cs w0) /\
  Forall2 (fun k metric => cache w !! k = Some metric) (created_keys cs w0) (store w) /\
  map_Forall (fun _ metric => metric ∈ store w) (cache w) /\
  NoDup (store w) /\
  size (cache w) = length (store w) /\
  (forall (c : Call Value) w1 k metric,
     call_key c w1 = Some k -> cache w1 !! k = Some metric ->
     fst (exec c w1) = Ret () /\
     store (snd (exec c w1)) = store w1 /\
     cache (snd (exec c w1)) = cache w1 /\
     metric_objects (snd (exec c w1)) =
       alter (fun m => Metric_update m (call_value Value c)) metric (metric_objects w1)).
Proof.
  intros w0 w.
  pose proof (consistent_run cs w0 [] (consistent_init rids mn lists)) as Hw.
  rewrite (seen_created cs w0 [] (consistent_init rids mn lists)) in Hw.
  cbn [app] in Hw. fold w in Hw.
  pose proof (Forall2_length _ _ _ (consistent_keys _ _ _ Hw)) as Hlen.
  split; [apply (consistent_NoDup _ _ _ Hw)|].
  split. { rewrite Hlen, (consistent_store _ _ _ Hw). by rewrite length_seq. }
  split; [apply (consistent_keys _ _ _ Hw)|].
  split; [by apply consistent_cache_in_store with (created_keys cs w0)|].
  split. { rewrite (consistent_store _ _ _ Hw). apply NoDup_seq. }
  split. { by rewrite (consistent_size _ _ Hw). }
  intros c w1 k metric Hk Hc.
  destruct (exec_effect c w1) as [e w' _ _ _ | k' m w' Hk' _ _ _ _ | k' l w' Hk' Hs Hc' Hm].
  - done.
  - congruence.
  - assert (l = metric) as -> by congruence. done.
Qed.

(** ** Order of the store *)

(** C8. [store] grows only by append: a call leaves it as it is or appends
    one element, so that the contents before any sequence of calls are a
    prefix of the contents after it.  On a new store, the elements are in
    the order of the first occurrences of the distinct keys: the i-th
    element is the [Metric] cached under the i-th distinct key. *)
Theorem store_append_only :
  (forall (c : Call Value) w,
     store (snd (exec c w)) = store w \/
     store (snd (exec c w)) = store w ++ [length (metric_objects w)]) /\
  (forall (cs : list (Call Value)) w, store w `prefix_of` store (run cs w)) /\
  (forall rids mn lists (cs : list (Call Value)),
     Forall2 (fun k metric => cache (run cs (init rids mn lists)) !! k = Some metric)
       (first_occurrences (keys cs (init rids mn lists)))
       (store (run cs (init rids mn lists)))).
Proof.
  split; [apply exec_store_prefix|]. split; [apply run_store_prefix|].
  intros rids mn lists cs.
  apply (consistent_keys _ _ _ (consistent_run cs _ [] (consistent_init rids mn lists))).
Qed.

(** ** The error path *)

Lemma add_or_update_lists name value req_id unit metrics_method (r : nat) w :
  list_objects (snd (_add_or_update name value req_id unit metrics_method (PyList r) w)) =
    <[r := items_of (list_objects w) r ++ tags req_id (model_name w)]> (list_objects w).
Proof.
  unfold _add_or_update.
  destruct req_id, unit; step; rewrite ?items_of_insert, ?insert_insert_eq,
    ?dim_str_Some, ?dim_str_None, <- ?app_assoc; cbn; try done.
  all: by destruct (cache w !! _).
Qed.


(** ** Where the argument [dimensions] goes *)

Lemma add_or_update_method name value req_id unit (mm mm' : PyObj) dimensions w :
  let r := _add_or_update name value req_id unit mm dimensions w in
  let r' := _add_or_update name value req_id unit mm' dimensions w in
  fst r = fst r' /\ store (snd r) = store (snd r') /\
  cache (snd r) = cache (snd r') /\ list_objects (snd r) = list_objects (snd r').
Proof.
  unfold _add_or_update.
  destruct dimensions, req_id, unit; step; rewrite ?dim_str_Some, ?dim_str_None; cbn.
  all: try done.
  all: by destruct (cache w !! _).
Qed.

(** In the five operations other than [add_counter] the argument
    [dimensions] is handed to [_add_or_update] as [metrics_method].  It is
    never tested and never read: whatever is passed, the call returns or
    raises alike and leaves the same [store], [cache] and list objects. *)
Lemma dimensions_never_read name value idx unit (dimensions dimensions' : PyObj) w :
  let same (r r' : Outcome () * World Value) :=
    fst r = fst r' /\ store (snd r) = store (snd r') /\
    cache (snd r) = cache (snd r') /\ list_objects (snd r) = list_objects (snd r') in
  same (add_time name value idx unit dimensions w)
       (add_time name value idx unit dimensions' w) /\
  same (add_size name value idx unit dimensions w)
       (add_size name value idx unit dimensions' w) /\
  same (add_percent name value idx dimensions w)
       (add_percent name value idx dimensions' w) /\
  same (add_error name value dimensions w)
       (add_error name value dimensions' w) /\
  same (add_metric name value idx unit dimensions w)
       (add_metric name value idx unit dimensions' w).
Proof.
  cbv zeta. unfold add_time, add_size, add_percent, add_error, add_metric.
  repeat case_bool_decide; rewrite ?bind_get_req.
  all: destruct (fst (_get_req idx w)); cbn.
  all: repeat split; try done.
  all: apply add_or_update_method.
Qed.

(** ** [add_counter] tells the orders of its dimensions apart *)

Lemma append_cancel (s a b : string) : s +:+ a = s +:+ b -> a = b.
Proof. induction s as [|c s IH]; cbn; [done|]. intros [= H]. by apply IH. Qed.

Lemma split_at_sep (x1 x2 r1 r2 : string) :
  no_sep x1 = true -> no_sep x2 = true ->
  x1 +:+ "-" +:+ r1 = x2 +:+ "-" +:+ r2 -> x1 = x2 /\ r1 = r2.
Proof.
  revert x2. induction x1 as [|c1 x1 IH]; intros [|c2 x2] H1 H2 H.
  - split; [done|]. injection H as Hr. exact Hr.
  - injection H as Hc _. subst c2. discriminate H2.
  - injection H as Hc _. subst c1. discriminate H1.
  - injection H as Hc Hr. subst c2.
    apply andb_prop in H1 as [_ H1]. apply andb_prop in H2 as [_ H2].
    destruct (IH x2 H1 H2 Hr) as [-> ->]. done.
Qed.

Lemma concat_sep_inj (l1 l2 : list string) :
  length l1 = length l2 ->
  Forall (fun s => no_sep s = true) l1 -> Forall (fun s => no_sep s = true) l2 ->
  String.concat "-" l1 = String.concat "-" l2 -> l1 = l2.
Proof.
  revert l2. induction l1 as [|x1 l1 IH]; intros [|x2 l2] Hlen H1 H2; try done.
  apply Forall_cons in H1 as [Hx1 H1]. apply Forall_cons in H2 as [Hx2 H2].
  destruct l1 as [|y1 l1], l2 as [|y2 l2]; try done.
  - cbn. by intros ->.
  - intros H. change (x1 +:+ "-" +:+ String.concat "-" (y1 :: l1)
                      = x2 +:+ "-" +:+ String.concat "-" (y2 :: l2)) in H.
    destruct (split_at_sep _ _ _ _ Hx1 Hx2 H) as [-> Hc].
    f_equal. apply IH; [cbn in Hlen |- *; lia|done..].
Qed.

Lemma cache_key_inj name u req_id (ds1 ds2 : list Dimension) :
  length ds1 = length ds2 -> ds1 <> [] ->
  Forall (fun d => no_sep (Dimension_str d) = true) ds1 ->
  Forall (fun d => no_sep (Dimension_str d) = true) ds2 ->
  cache_key name u req_id ds1 = cache_key name u req_id ds2 ->
  map Dimension_str ds1 = map Dimension_str ds2.
Proof.
  intros Hlen Hne H1 H2. unfold cache_key.
  destruct ds1 as [|d1 ds1], ds2 as [|d2 ds2]; try done.
  intros H.
  change (name +:+ "-" +:+ u +:+ "-" +:+ py_str req_id +:+ "-" +:+
            String.concat "-" (map Dimension_str (d1 :: ds1))
          = name +:+ "-" +:+ u +:+ "-" +:+ py_str req_id +:+ "-" +:+
            String.concat "-" (map Dimension_str (d2 :: ds2))) in H.
  do 6 apply append_cancel in H.
  apply concat_sep_inj in H; [done|by rewrite !length_map|by apply Forall_map..].
Qed.

Lemma consistent_cache_inj w ks k1 k2 metric :
  consistent w ks ->
  cache w !! k1 = Some metric -> cache w !! k2 = Some metric -> k1 = k2.
Proof.
  intros Hw H1 H2.
  pose proof (consistent_cached _ _ _ _ Hw H1) as [i1 Hi1]%list_elem_of_lookup.
  pose proof (consistent_cached _ _ _ _ Hw H2) as [i2 Hi2]%list_elem_of_lookup.
  destruct (Forall2_lookup_l _ _ _ _ _ (consistent_keys _ _ _ Hw) Hi1) as (l1 & Hl1 & Hk1).
  destruct (Forall2_lookup_l _ _ _ _ _ (consistent_keys _ _ _ Hw) Hi2) as (l2 & Hl2 & Hk2).
  assert (l1 = metric) as -> by congruence. assert (l2 = metric) as -> by congruence.
  assert (NoDup (store w)) as Hnd.
  { rewrite (consistent_store _ _ _ Hw). apply NoDup_seq. }
  assert (i1 = i2) as -> by exact (NoDup_lookup _ _ _ _ Hnd Hl1 Hl2).
  congruence.
Qed.

Lemma effect_cached w value k o w' :
  Effect w value (Some k) o w' -> is_Some (cache w' !! k).
Proof.
  inversion 1 as [| ? ? ? _ _ _ Hc _ | ? ? ? Hk _ Hc _]; subst; rewrite Hc.
  - rewrite lookup_insert_eq. by eexists.
  - by eexists.
Qed.

Lemma effect_cache_mono w value ko o w' k metric :
  Effect w value ko o w' -> cache w !! k = Some metric -> cache w' !! k = Some metric.
Proof.
  intros He Hk. destruct He as [? ? _ Hc _ | k' ? ? Hk' _ _ Hc _ | ? ? ? _ _ Hc _];
    rewrite Hc; [done| |done].
  rewrite lookup_insert_ne; [done|]. congruence.
Qed.

(** Two calls of [add_counter] with the same name and index and with two
    list objects of the same length give two elements of [store], when the
    lists differ as sequences of dimension strings and no dimension string
    holds the separator. *)
Lemma add_counter_order_sensitive name value1 value2 idx req_id (r1 r2 : nat) w ks :
  let ds1 := items_of (list_objects w) r1 in
  let ds2 := items_of (list_objects w) r2 in
  let w' := run [AddCounter Value name value1 idx (PyList r1);
                 AddCounter Value name value2 idx (PyList r2)] w in
  consistent w ks ->
  resolved idx w = Some req_id ->
  r1 <> r2 ->
  length ds1 = length ds2 ->
  map Dimension_str ds1 <> map Dimension_str ds2 ->
  Forall (fun d => no_sep (Dimension_str d) = true)
    (ds1 ++ ds2 ++ tags req_id (model_name w)) ->
  exists k1 k2 metric1 metric2,
    cache w' !! k1 = Some metric1 /\ cache w' !! k2 = Some metric2 /\
    metric1 ∈ store w' /\ metric2 ∈ store w' /\ metric1 <> metric2.
Proof.
  intros ds1 ds2 w' Hw Hreq Hr Hlen Hds Hsep. subst w'.
  apply Forall_app in Hsep as [Hsep1 Hsep2].
  apply Forall_app in Hsep2 as [Hsep2 Hsept].
  set (c1 := AddCounter Value name value1 idx (PyList r1)).
  set (c2 := AddCounter Value name value2 idx (PyList r2)).
  set (w1 := snd (exec c1 w)).
  assert (call_key c1 w = Some (cache_key name "count" req_id
            (ds1 ++ tags req_id (model_name w)))) as Hk1.
  { cbn. by rewrite Hreq. }
  assert (w1 = snd (_add_or_update name value1 req_id (Some "count")
                      (PyStr "counter") (PyList r1) w)) as Hw1.
  { subst w1 c1. cbn. unfold add_counter. rewrite bind_get_req.
    unfold resolved in Hreq. destruct (fst (_get_req idx w)); by simplify_eq. }
  assert (request_ids w1 = request_ids w /\ model_name w1 = model_name w) as [Hrid Hmn].
  { rewrite Hw1. apply add_or_update_frame. }
  assert (call_key c2 w1 = Some (cache_key name "count" req_id
            (ds2 ++ tags req_id (model_name w)))) as Hk2.
  { cbn. unfold resolved. rewrite get_req_outcome, Hrid, <- get_req_outcome.
    fold (resolved idx w). rewrite Hreq. cbn. unfold key_of. rewrite Hmn.
    do 3 f_equal. rewrite Hw1, add_or_update_lists. unfold items_of.
    by rewrite lookup_insert_ne. }
  set (k1 := cache_key name "count" req_id (ds1 ++ tags req_id (model_name w))) in *.
  set (k2 := cache_key name "count" req_id (ds2 ++ tags req_id (model_name w))) in *.
  assert (k1 <> k2) as Hne.
  { intros Heq. apply Hds. apply cache_key_inj in Heq.
    - rewrite !map_app in Heq. apply app_inj_1 in Heq as [? _]; [done|].
      by rewrite !length_map.
    - by rewrite !length_app, Hlen.
    - destruct ds1, req_id; done.
    - by apply Forall_app.
    - by apply Forall_app. }
  pose proof (exec_effect c1 w) as He1. rewrite Hk1 in He1. fold w1 in He1.
  pose proof (exec_effect c2 w1) as He2. rewrite Hk2 in He2.
  pose proof (consistent_exec _ _ c2 (consistent_exec _ _ c1 Hw)) as Hw2.
  fold w1 in Hw2.
  destruct (effect_cached _ _ _ _ _ He1) as [m1 Hm1].
  destruct (effect_cached _ _ _ _ _ He2) as [m2 Hm2].
  pose proof (effect_cache_mono _ _ _ _ _ _ _ He2 Hm1) as Hm1'.
  exists k1, k2, m1, m2. rewrite run_cons, run_cons. cbn [run fold_left].
  fold w1. repeat split; try done.
  - eapply consistent_cache_in_store; [exact Hw2|exact Hm1'].
  - eapply consistent_cache_in_store; [exact Hw2|exact Hm2].
  - intros ->. apply Hne. eapply consistent_cache_inj; [exact Hw2|done..].
Qed.


(** ** The closed form of [_add_or_update] without a list argument *)

Lemma add_or_update_none name value req_id u metrics_method w :
  let r := fresh (dom (list_objects w)) in
  let key := cache_key name u req_id (tags req_id (model_name w)) in
  let lists := <[r := tags req_id (model_name w)]> (list_objects w) in
  _add_or_update name value req_id (Some u) metrics_method PyNone w =
    (Ret (),
     match cache w !! key with
     | None =>
         mkWorld (store w ++ [length (metric_objects w)]) (request_ids w)
           (model_name w) (<[key := length (metric_objects w)]> (cache w))
           (metric_objects w ++ [mkMetric name value (Some u) r req_id metrics_method])
           lists
     | Some metric =>
         mkWorld (store w) (request_ids w) (model_name w) (cache w)
           (alter (fun m => Metric_update m value) metric (metric_objects w)) lists
     end).
Proof.
  intros r key lists. subst r key lists. unfold _add_or_update.
  destruct req_id; step; rewrite !items_of_insert, !insert_insert_eq, dim_str_Some; cbn.
  all: by destruct (cache w !! _).
Qed.

Lemma fresh_two_orders : fresh (dom (list_objects (@two_orders Value))) = 2.
Proof. vm_compute. reflexivity. Qed.

Lemma fresh_batch : fresh (dom (list_objects (@batch Value))) = 0.
Proof. vm_compute. reflexivity. Qed.

Lemma exec_frame (c : Call Value) w :
  request_ids (snd (exec c w)) = request_ids w /\
  model_name (snd (exec c w)) = model_name w.
Proof.
  destruct c; cbn; unfold add_counter, add_time, add_size, add_percent,
    add_error, add_metric.
  all: repeat case_bool_decide; try done.
  all: rewrite ?bind_get_req.
  all: try (destruct (fst (_get_req idx w)); cbn; [|done]).
  all: apply add_or_update_frame.
Qed.

Lemma resolved_frame idx w w' :
  request_ids w' = request_ids w -> resolved idx w' = resolved idx w.
Proof. intros H. unfold resolved. by rewrite !get_req_outcome, H. Qed.

(** The key of an [add_time] call is made without its [dimensions], and a
    call in between does not change it. *)
Lemma add_time_key name value1 value2 idx unit (dimensions1 dimensions2 : PyObj) w :
  call_key (AddTime Value name value2 idx unit dimensions2)
           (snd (exec (AddTime Value name value1 idx unit dimensions1) w))
  = call_key (AddTime Value name value1 idx unit dimensions1) w.
Proof.
  destruct (exec_frame (AddTime Value name value1 idx unit dimensions1) w) as [Hr Hm].
  revert Hr Hm.
  generalize (snd (exec (AddTime Value name value1 idx unit dimensions1) w)).
  intros w' Hr Hm. cbn. case_bool_decide; [|done].
  rewrite (resolved_frame idx w w' Hr). destruct (resolved idx w); [|done]. cbn.
  unfold key_of. by rewrite Hm.
Qed.

(** ** The three claims that the positional argument breaks *)

(** C1 at a failing input, for any collaborators: on the batch A, B of the
    model resnet, [add_time] is given an integer as [dimensions].  It
    returns, its [Metric] is appended to [store] and cached, and the integer
    is the aggregation method of the [Metric].  [add_counter] raises the
    contract error on the same argument and leaves the world as it is. *)
Theorem add_time_non_list_dimensions name value (z : Z) :
  let r := add_time name value None (Some "ms") (PyInt z) batch in
  fst r = Ret () /\
  store (snd r) = [0] /\
  cache (snd r) !! cache_key name "ms" (Some "A,B") (tags (Some "A,B") "resnet") = Some 0 /\
  metric_objects (snd r) = [mkMetric name value (Some "ms") 0 (Some "A,B") (PyInt z)] /\
  add_counter name value None (PyInt z) batch = (Raise (ValueError dimensions_msg), batch).
Proof.
  unfold add_time, add_counter.
  case_bool_decide as H; [exfalso; apply H; by left|].
  rewrite !bind_get_req, get_req_outcome. cbn.
  rewrite add_or_update_none, fresh_batch. cbn. rewrite lookup_empty. cbn.
  rewrite lookup_insert_eq. done.
Qed.

(** C2 at failing inputs, for any collaborators: each of the five operations
    is given the list object 0 of [two_orders], which holds k1=v1 and k2=v2.
    The [Metric] it constructs has a new list that holds the appended
    dimensions only, and the caller's list as its aggregation method.
    [add_counter] has the caller's dimensions before the appended ones. *)
Theorem caller_dimensions_dropped name value :
  let dims_and_method (r : Outcome () * World Value) :=
    map (fun m => (items_of (list_objects (snd r)) (m_dimensions m), m_metrics_method m))
        (metric_objects (snd r)) in
  let model := [mkDimension "ModelName" "resnet"; mkDimension "Level" "Model"] in
  dims_and_method (add_time name value (Some 0%Z) (Some "ms") (PyList 0) two_orders)
    = [(model, PyList 0)] /\
  dims_and_method (add_size name value (Some 0%Z) (Some "MB") (PyList 0) two_orders)
    = [(model, PyList 0)] /\
  dims_and_method (add_percent name value (Some 0%Z) (PyList 0) two_orders)
    = [(model, PyList 0)] /\
  dims_and_method (add_error name value (PyList 0) two_orders)
    = [([mkDimension "Level" "Error"], PyList 0)] /\
  dims_and_method (add_metric name value (Some 0%Z) (Some "u") (PyList 0) two_orders)
    = [(model, PyList 0)] /\
  dims_and_method (add_counter name value (Some 0%Z) (PyList 0) two_orders)
    = [([mkDimension "k1" "v1"; mkDimension "k2" "v2"] ++ model, PyStr "counter")].
Proof.
  cbv zeta. unfold add_time, add_size, add_percent, add_error, add_metric.
  repeat (case_bool_decide as H; [exfalso; apply H; set_solver|]; clear H).
  rewrite !bind_get_req, get_req_outcome. cbn.
  rewrite !add_or_update_none, fresh_two_orders. cbn. rewrite !lookup_empty. cbn.
  rewrite !items_of_insert.
  repeat split.
Qed.

(** C4 at a failing input, for any collaborators: two calls of [add_time]
    with the two orders of k1=v1 and k2=v2 on [two_orders] leave one element
    in [store] and one entry in [cache]; the second call has updated the
    [Metric] of the first.  In any world, a second [add_time] with the same
    name, index and unit appends nothing, whatever the two [dimensions]
    are. *)
Theorem add_time_ignores_dimension_order name value1 value2 :
  let w := run [AddTime Value name value1 (Some 0%Z) (Some "ms") (PyList 0);
                AddTime Value name value2 (Some 0%Z) (Some "ms") (PyList 1)] two_orders in
  store w = [0] /\
  size (cache w) = 1 /\
  metric_objects w =
    [Metric_update (mkMetric name value1 (Some "ms") 2 (Some "A") (PyList 0)) value2] /\
  (forall idx unit (dimensions1 dimensions2 : PyObj) w1,
     store (run [AddTime Value name value1 idx unit dimensions1;
                 AddTime Value name value2 idx unit dimensions2] w1)
     = store (snd (exec (AddTime Value name value1 idx unit dimensions1) w1))).
Proof.
  cbv zeta. split; [|split; [|split]].
  4: { intros idx unit d1 d2 w1. rewrite run_cons. change (run [] ?w) with w.
       pose proof (exec_effect (AddTime Value name value1 idx unit d1) w1) as He1.
       pose proof (exec_effect (AddTime Value name value2 idx unit d2)
                     (snd (exec (AddTime Value name value1 idx unit d1) w1))) as He2.
       rewrite add_time_key in He2. rewrite run_cons. change (run [] ?w) with w.
       destruct (call_key (AddTime Value name value1 idx unit d1) w1) as [k|].
       - destruct (effect_cached _ _ _ _ _ He1) as [m Hm].
         inversion He2; [congruence|done].
       - by inversion He2. }
  all: unfold run, exec; cbn [fold_left].
  all: unfold add_time.
  all: repeat (case_bool_decide as H; [exfalso; apply H; set_solver|]; clear H).
  all: rewrite !bind_get_req, !get_req_outcome; cbn.
  all: rewrite add_or_update_none, fresh_two_orders; cbn; rewrite lookup_empty; cbn.
  all: rewrite add_or_update_none; cbn; rewrite lookup_insert_eq; cbn.
  - done.
  - by rewrite insert_empty, map_size_singleton.
  - done.
Qed.


(** * Further properties of the operations *)

Lemma items_of_fresh (h : gmap nat (list Dimension)) :
  items_of h (fresh (dom h)) = [].
Proof.
  unfold items_of. rewrite (proj1 (not_elem_of_dom h _)); [done|]. apply is_fresh.
Qed.

(** The closed form of [_add_or_update] on the list object [r], which is
    the caller's list or a new one. *)
Lemma add_or_update_closed name value req_id u metrics_method dimensions (r : nat) w :
  let items := items_of (list_objects w) r ++ tags req_id (model_name w) in
  let key := cache_key name u req_id items in
  let lists := <[r := items]> (list_objects w) in
  dimensions = PyList r \/
    (dimensions = PyNone /\ r = fresh (dom (list_objects w))) ->
  _add_or_update name value req_id (Some u) metrics_method dimensions w =
    (Ret (),
     match cache w !! key with
     | None =>
         mkWorld (store w ++ [length (metric_objects w)]) (request_ids w)
           (model_name w) (<[key := length (metric_objects w)]> (cache w))
           (metric_objects w ++ [mkMetric name value (Some u) r req_id metrics_method])
           lists
     | Some metric =>
         mkWorld (store w) (request_ids w) (model_name w) (cache w)
           (alter (fun m => Metric_update m value) metric (metric_objects w)) lists
     end).
Proof.
  intros items key lists [->|[-> ->]]; subst items key lists.
  - unfold _add_or_update.
    destruct req_id; step; rewrite !items_of_insert, ?insert_insert_eq,
      <- ?app_assoc, dim_str_Some; cbn.
    all: by destruct (cache w !! _).
  - rewrite add_or_update_none, items_of_fresh. done.
Qed.

Lemma add_or_update_rejects name value req_id unit metrics_method dimensions w :
  dimensions <> PyNone -> (forall r, dimensions <> PyList r) ->
  _add_or_update name value req_id unit metrics_method dimensions w
    = (Raise (ValueError dimensions_msg), w).
Proof.
  intros Hn Hl. unfold _add_or_update. destruct dimensions; try done.
  by destruct (Hl r).
Qed.

(** X2. [add_counter] with a [dimensions] argument that is neither [None]
    nor a list always raises and leaves the whole world as it was; when the
    request id is resolved, the exception is the [ValueError] of the
    dimension check. *)
Theorem add_counter_rejects_non_list name value idx dimensions w :
  dimensions <> PyNone -> (forall r, dimensions <> PyList r) ->
  (exists e, add_counter name value idx dimensions w = (Raise e, w)) /\
  (is_Some (resolved idx w) ->
   add_counter name value idx dimensions w = (Raise (ValueError dimensions_msg), w)).
Proof.
  intros Hn Hl. unfold add_counter, resolved. rewrite bind_get_req.
  destruct (fst (_get_req idx w)) as [req_id|e].
  - rewrite (add_or_update_rejects _ _ _ _ _ _ _ Hn Hl). split; [by eexists|done].
  - split; [by eexists|]. by intros [? ?].
Qed.

(** X3. A successful [add_counter] with a list appends the tags to the
    caller's own list object, also when the key is cached and the call only
    updates; a [Metric] that it constructs refers to that same list object,
    and no other list object is written. *)
Theorem add_counter_appends_to_list name value idx req_id (r : nat) w :
  resolved idx w = Some req_id ->
  fst (add_counter name value idx (PyList r) w) = Ret () /\
  list_objects (snd (add_counter name value idx (PyList r) w)) =
    <[r := items_of (list_objects w) r ++ tags req_id (model_name w)]> (list_objects w) /\
  Forall (fun m => m_dimensions m = r)
    (allocated_by (AddCounter Value name value idx (PyList r)) w).
Proof.
  intros Hreq. unfold allocated_by. cbn [exec]. unfold add_counter, resolved in *.
  rewrite bind_get_req. destruct (fst (_get_req idx w)) as [req|]; [|done].
  injection Hreq as ->.
  rewrite (add_or_update_closed _ _ _ _ _ (PyList r) r) by auto. cbn.
  destruct (cache w !! _); cbn; repeat split.
  - rewrite drop_ge; [done|]. by rewrite length_alter.
  - rewrite drop_app_length. by constructor.
Qed.


Lemma add_or_update_allocated name value req_id unit metrics_method dimensions w :
  Forall (fun m =>
      m_name m = name /\ m_value m = value /\ m_unit m = unit /\
      m_request_id m = req_id /\ m_metrics_method m = metrics_method /\
      exists items,
        items_of (list_objects
          (snd (_add_or_update name value req_id unit metrics_method dimensions w)))
          (m_dimensions m) = items ++ tags req_id (model_name w))
    (drop (length (metric_objects w))
       (metric_objects
          (snd (_add_or_update name value req_id unit metrics_method dimensions w)))).
Proof.
  destruct (key_of name unit req_id dimensions w) as [k|] eqn:Hk.
  - unfold key_of in Hk. destruct unit as [u|]; [|done].
    assert (exists r, dimensions = PyList r \/
              (dimensions = PyNone /\ r = fresh (dom (list_objects w)))) as [r Hr].
    { destruct dimensions; try done; eauto. }
    rewrite (add_or_update_closed _ _ _ _ _ _ r) by done. cbn.
    destruct (cache w !! _); cbn.
    + rewrite drop_ge; [constructor|]. by rewrite length_alter.
    + rewrite drop_app_length. constructor; [|constructor]. cbn.
      repeat split. rewrite items_of_insert. by eexists.
  - pose proof (add_or_update_effect name value req_id unit metrics_method
                  dimensions w) as He.
    rewrite Hk in He. inversion He as [? ? _ _ Hm| |]; subst.
    rewrite Hm, drop_all. constructor.
Qed.

Lemma exec_allocated (c : Call Value) w :
  Forall (fun m =>
      m_name m = call_name Value c /\ m_value m = call_value Value c /\
      m_unit m = call_unit Value c /\
      call_req Value c w = Some (m_request_id m) /\
      exists items,
        items_of (list_objects (snd (exec c w))) (m_dimensions m)
          = items ++ tags (m_request_id m) (model_name w))
    (allocated_by c w).
Proof.
  unfold allocated_by.
  destruct c; cbn; unfold add_counter, add_time, add_size, add_percent,
    add_error, add_metric, resolved.
  all: repeat case_bool_decide; try (by rewrite drop_all).
  all: rewrite ?bind_get_req.
  all: try (destruct (fst (_get_req idx w)) as [req_id|]; cbn; [|by rewrite drop_all]).
  all: eapply Forall_impl; [apply add_or_update_allocated|].
  all: cbn; intros m (-> & -> & -> & Hreq & _ & Hitems); rewrite Hreq.
  all: by repeat split.
Qed.

(** X4. A [Metric] that a call constructs has the name and the value of the
    call, the unit of the operation, and the request id that the call
    resolves ([None] for [add_error]); its dimension list ends with the tags
    for that request id: ModelName and Level=Model, or Level=Error. *)
Theorem constructed_metric (c : Call Value) w :
  Forall (fun m =>
      m_name m = call_name Value c /\ m_value m = call_value Value c /\
      m_unit m = call_unit Value c /\
      call_req Value c w = Some (m_request_id m) /\
      exists items,
        items_of (list_objects (snd (exec c w))) (m_dimensions m)
          = items ++ tags (m_request_id m) (model_name w))
    (allocated_by c w).
Proof. apply exec_allocated. Qed.

(** X1. When the store has no request ids, every index resolves to [None]
    without raising, so that the metrics of all six operations are error
    metrics: a [Metric] that any call constructs has no request id and a
    dimension list that ends with Level=Error. *)
Theorem no_request_ids w :
  request_ids w = ReqNone ->
  (forall idx, _get_req idx w = (Ret None, w)) /\
  (forall c : Call Value,
     Forall (fun m =>
         m_request_id m = None /\
         last (items_of (list_objects (snd (exec c w))) (m_dimensions m))
           = Some (mkDimension "Level" "Error"))
       (allocated_by c w)).
Proof.
  intros Hn.
  assert (forall idx, _get_req idx w = (Ret None, w)) as Hget.
  { intros idx. rewrite (get_req_pair idx w), get_req_outcome, Hn. by destruct idx. }
  split; [done|]. intros c.
  eapply Forall_impl; [apply exec_allocated|].
  cbn. intros m (_ & _ & _ & Hreq & items & Hitems).
  assert (m_request_id m = None) as Hm.
  { destruct c; cbn in Hreq; unfold resolved in Hreq; rewrite ?Hget in Hreq;
      cbn in Hreq; congruence. }
  split; [done|]. rewrite Hitems, Hm. cbn. by rewrite last_snoc.
Qed.






Lemma run_frame (cs : list (Call Value)) w :
  request_ids (run cs w) = request_ids w /\ model_name (run cs w) = model_name w.
Proof.
  revert w. induction cs as [|c cs IH]; intros w; [done|].
  rewrite run_cons. destruct (IH (snd (exec c w))) as [-> ->]. apply exec_frame.
Qed.

(** X6. No call changes [request_ids] or [model_name]: after any sequence of
    calls they are the ones given to the constructor, and an index resolves
    to the same request id, or raises alike, as it did at the start. *)
Theorem identity_fixed (cs : list (Call Value)) w :
  request_ids (run cs w) = request_ids w /\
  model_name (run cs w) = model_name w /\
  (forall idx, fst (_get_req idx (run cs w)) = fst (_get_req idx w)).
Proof.
  destruct (run_frame cs w) as [Hr Hm]. repeat split; try done.
  intros idx. by rewrite !get_req_outcome, Hr.
Qed.

(** X7. The cache only grows: a key that is cached stays cached for the
    same [Metric] object through any sequence of calls.  No call removes a
    key or binds it to another object. *)
Theorem cache_grows (cs : list (Call Value)) w :
  cache w ⊆ cache (run cs w).
Proof.
  revert w. induction cs as [|c cs IH]; intros w; [done|].
  rewrite run_cons. etrans; [|apply IH].
  apply map_subseteq_spec. intros k metric Hk.
  by apply (effect_cache_mono _ _ _ _ _ _ _ (exec_effect c w)).
Qed.

(** X8. A call writes to at most one of the [Metric] objects that exist: the
    one cached under its key.  Every other object is after the call what it
    was before, whether the call updates, constructs or raises. *)
Theorem other_metrics_untouched (c : Call Value) w (i : nat) (m : Metric Value) :
  metric_objects w !! i = Some m ->
  (forall k, call_key c w = Some k -> cache w !! k <> Some i) ->
  metric_objects (snd (exec c w)) !! i = Some m.
Proof.
  intros Hi Hother.
  destruct (exec_effect c w) as [e w' _ _ Hm | k m' w' _ _ _ _ Hm | k l w' Hk _ _ Hm];
    rewrite Hm.
  - done.
  - rewrite lookup_app_l; [done|]. by apply lookup_lt_Some in Hi.
  - rewrite list_lookup_alter_ne; [done|]. intros ->. by apply (Hother k).
Qed.

Lemma add_or_update_no_unit name value req_id metrics_method w :
  _add_or_update name value req_id None metrics_method PyNone w =
    (Raise (TypeError join_none_msg),
     mkWorld (store w) (request_ids w) (model_name w) (cache w) (metric_objects w)
       (<[fresh (dom (list_objects w)) := tags req_id (model_name w)]> (list_objects w))).
Proof.
  unfold _add_or_update.
  destruct req_id; step; by rewrite !items_of_insert, !insert_insert_eq.
Qed.



(** ** Keys as strings *)

Lemma append_assoc (a b c : string) : (a +:+ b) +:+ c = a +:+ (b +:+ c).
Proof.
  induction a as [|x a IH]; [reflexivity|].
  change (String x ((a +:+ b) +:+ c) = String x (a +:+ (b +:+ c))). by rewrite IH.
Qed.

Lemma length_append (a b : string) :
  String.length (a +:+ b) = String.length a + String.length b.
Proof.
  induction a as [|x a IH]; [reflexivity|].
  change (S (String.length (a +:+ b)) = S (String.length a) + String.length b).
  by rewrite IH.
Qed.

Lemma append_cancel_r (a b s : string) : a +:+ s = b +:+ s -> a = b.
Proof.
  revert b. induction a as [|x a IH]; intros [|y b] H; [done| | |].
  - apply (f_equal String.length) in H. rewrite !length_append in H.
    change (String.length (String y b)) with (S (String.length b)) in H.
    change (String.length EmptyString) with 0 in H. lia.
  - apply (f_equal String.length) in H. rewrite !length_append in H.
    change (String.length (String x a)) with (S (String.length a)) in H.
    change (String.length EmptyString) with 0 in H. lia.
  - injection H as -> H. by rewrite (IH b H).
Qed.

Lemma concat_cons (x y : string) (l : list string) :
  String.concat "-" (x :: y :: l) = x +:+ "-" +:+ String.concat "-" (y :: l).
Proof. reflexivity. Qed.

Lemma concat_snoc_length (l : list string) (x : string) :
  l <> [] ->
  String.length (String.concat "-" (l ++ [x]))
    = String.length (String.concat "-" l) + 1 + String.length x.
Proof.
  induction l as [|a l IH]; [done|]. intros _. destruct l as [|b l].
  - cbn [app]. rewrite concat_cons, !length_append. cbn. lia.
  - change ((a :: b :: l) ++ [x]) with (a :: b :: (l ++ [x])).
    rewrite !concat_cons, !length_append.
    change (b :: l ++ [x]) with ((b :: l) ++ [x]). rewrite IH by done. cbn. lia.
Qed.

Lemma concat_app_length (l t : list string) :
  l <> [] -> t <> [] ->
  String.length (String.concat "-" l) < String.length (String.concat "-" (l ++ t)).
Proof.
  intros Hl. induction t as [|x t IH] using rev_ind; [done|]. intros _.
  rewrite app_assoc, concat_snoc_length by (by destruct l).
  destruct t as [|y t]; [rewrite app_nil_r; lia|].
  assert (y :: t <> []) as Hne by done. specialize (IH Hne). lia.
Qed.

(** The key of a list is not the key of the list with more appended. *)
Lemma cache_key_longer name u req_id (ds t : list Dimension) :
  t <> [] -> cache_key name u req_id (ds ++ t) <> cache_key name u req_id ds.
Proof.
  intros Ht Heq. apply (f_equal String.length) in Heq. unfold cache_key in Heq.
  rewrite map_app in Heq.
  pose proof (concat_app_length
    (name :: u :: py_str req_id :: map Dimension_str ds) (map Dimension_str t)) as Hlt.
  cbn [app] in Hlt. rewrite Heq in Hlt.
  enough (String.length (String.concat "-"
            (name :: u :: py_str req_id :: map Dimension_str ds)) <
          String.length (String.concat "-"
            (name :: u :: py_str req_id :: map Dimension_str ds))) by lia.
  apply Hlt; [done|]. by destruct t.
Qed.

(** A separator at the end of the name or at the start of the unit gives
    the same key. *)
Lemma cache_key_shift name s u req_id (ds : list Dimension) :
  cache_key name (s +:+ "-" +:+ u) req_id ds
    = cache_key (name +:+ "-" +:+ s) u req_id ds.
Proof. unfold cache_key. by rewrite !concat_cons, !append_assoc. Qed.

Lemma cache_key_name_inj name1 name2 u req_id (ds : list Dimension) :
  cache_key name1 u req_id ds = cache_key name2 u req_id ds -> name1 = name2.
Proof. unfold cache_key. rewrite !(concat_cons _ u). apply append_cancel_r. Qed.

(** ** How two calls compose *)

Lemma same_key_no_append (c1 c2 : Call Value) w :
  call_key c2 (snd (exec c1 w)) = call_key c1 w ->
  store (run [c1; c2] w) = store (snd (exec c1 w)) /\
  length (metric_objects (run [c1; c2] w)) = length (metric_objects (snd (exec c1 w))).
Proof.
  intros Hkey. rewrite run_cons. change (run [c2] ?w) with (snd (exec c2 w)).
  pose proof (exec_effect c1 w) as He1.
  pose proof (exec_effect c2 (snd (exec c1 w))) as He2. rewrite Hkey in He2.
  destruct (call_key c1 w) as [k|].
  - destruct (effect_cached _ _ _ _ _ He1) as [m Hm].
    inversion He2 as [| |? ? ? _ Hs _ Ho]; [congruence|].
    by rewrite Ho, length_alter.
  - inversion He2 as [? ? Hs _ Ho| |]. by rewrite Ho.
Qed.

Lemma distinct_keys_distinct_metrics (c1 c2 : Call Value) w ks (k1 k2 : string) :
  consistent w ks ->
  call_key c1 w = Some k1 -> call_key c2 (snd (exec c1 w)) = Some k2 -> k1 <> k2 ->
  exists metric1 metric2,
    cache (run [c1; c2] w) !! k1 = Some metric1 /\
    cache (run [c1; c2] w) !! k2 = Some metric2 /\
    metric1 ∈ store (run [c1; c2] w) /\ metric2 ∈ store (run [c1; c2] w) /\
    metric1 <> metric2.
Proof.
  intros Hw Hk1 Hk2 Hne. rewrite run_cons. change (run [c2] ?w) with (snd (exec c2 w)).
  pose proof (exec_effect c1 w) as He1. rewrite Hk1 in He1.
  pose proof (exec_effect c2 (snd (exec c1 w))) as He2. rewrite Hk2 in He2.
  pose proof (consistent_exec _ _ c2 (consistent_exec _ _ c1 Hw)) as Hw2.
  destruct (effect_cached _ _ _ _ _ He1) as [m1 Hm1].
  destruct (effect_cached _ _ _ _ _ He2) as [m2 Hm2].
  pose proof (effect_cache_mono _ _ _ _ _ _ _ He2 Hm1) as Hm1'.
  exists m1, m2. repeat split; try done.
  - eapply consistent_cache_in_store; [exact Hw2|exact Hm1'].
  - eapply consistent_cache_in_store; [exact Hw2|exact Hm2].
  - intros ->. apply Hne. eapply consistent_cache_inj; [exact Hw2|done..].
Qed.


Lemma alter_last {A} (f : A -> A) (l : list A) (x : A) :
  alter f (length l) (l ++ [x]) = l ++ [f x].
Proof. rewrite <- (Nat.add_0_r (length l)). by rewrite alter_app_r. Qed.

Lemma resolved_get_req idx req_id w :
  resolved idx w = Some req_id -> fst (_get_req idx w) = Ret req_id.
Proof. unfold resolved. destruct (fst (_get_req idx w)); by intros [= ->]. Qed.

Lemma counter_updates name (values : list Value) idx req_id w (mo : list (Metric Value))
    (m : Metric Value) :
  resolved idx w = Some req_id ->
  cache w !! cache_key name "count" req_id (tags req_id (model_name w))
    = Some (length mo) ->
  metric_objects w = mo ++ [m] ->
  let w' := run (map (fun v => AddCounter Value name v idx PyNone) values) w in
  store w' = store w /\ cache w' = cache w /\
  metric_objects w' = mo ++ [fold_left Metric_update values m].
Proof.
  revert w m. induction values as [|v values IH]; intros w m Hreq Hk Hm; [done|].
  cbn [map]. cbv zeta. rewrite run_cons. cbn [exec]. unfold add_counter.
  rewrite bind_get_req, (resolved_get_req _ _ _ Hreq).
  rewrite add_or_update_none, Hk.
  set (w1 := mkWorld _ _ _ _ _ _).
  destruct (IH w1 (Metric_update m v)) as (Hs & Hc & Ho); try done.
  - by rewrite (resolved_frame idx w w1).
  - subst w1. cbn. by rewrite Hm, alter_last.
Qed.

(** X10. Repeated counts without dimensions aggregate: calls of
    [add_counter] with one name and one index, started where the key is not
    cached, leave exactly one new element in [store], and its [Metric] is
    the one of the first call with the later values passed to [update] one
    after the other. *)
Theorem counter_accumulates name value (values : list Value) idx req_id w :
  resolved idx w = Some req_id ->
  cache w !! cache_key name "count" req_id (tags req_id (model_name w)) = None ->
  let w' := run (map (fun v => AddCounter Value name v idx PyNone)
                     (value :: values)) w in
  store w' = store w ++ [length (metric_objects w)] /\
  cache w' = <[cache_key name "count" req_id (tags req_id (model_name w))
               := length (metric_objects w)]> (cache w) /\
  metric_objects w' =
    metric_objects w ++
    [fold_left Metric_update values
       (mkMetric name value (Some "count") (fresh (dom (list_objects w)))
          req_id (PyStr "counter"))].
Proof.
  intros Hreq Hk. cbn [map]. cbv zeta. rewrite run_cons. cbn [exec].
  unfold add_counter. rewrite bind_get_req, (resolved_get_req _ _ _ Hreq).
  rewrite add_or_update_none, Hk.
  set (w1 := mkWorld _ _ _ _ _ _).
  destruct (counter_updates name values idx req_id w1 (metric_objects w)
              (mkMetric name value (Some "count") (fresh (dom (list_objects w)))
                 req_id (PyStr "counter"))) as (Hs & Hc & Ho); try done.
  - by rewrite (resolved_frame idx w w1).
  - subst w1. cbn. by rewrite lookup_insert_eq.
Qed.

(** X11. A list object that is passed to [add_counter] twice is never
    deduplicated with itself: on a new store the two calls construct two
    [Metric] objects that share the list, which by then holds the tags
    twice. *)
Theorem same_list_twice rids mn lists name value1 value2 idx req_id (r : nat) :
  resolved idx (init rids mn lists : World Value) = Some req_id ->
  let w := run [AddCounter Value name value1 idx (PyList r);
                AddCounter Value name value2 idx (PyList r)] (init rids mn lists) in
  store w = [0; 1] /\
  map m_dimensions (metric_objects w) = [r; r] /\
  items_of (list_objects w) r = items_of lists r ++ tags req_id mn ++ tags req_id mn.
Proof.
  intros Hreq. cbv zeta. rewrite run_cons.
  assert (snd (exec (AddCounter Value name value1 idx (PyList r)) (init rids mn lists))
          = mkWorld [0] rids mn
              (<[cache_key name "count" req_id (items_of lists r ++ tags req_id mn) := 0]> ∅)
              [mkMetric name value1 (Some "count") r req_id (PyStr "counter")]
              (<[r := items_of lists r ++ tags req_id mn]> lists)) as ->.
  { cbn [exec]. unfold add_counter.
    rewrite bind_get_req, (resolved_get_req _ _ _ Hreq).
    rewrite (add_or_update_closed _ _ _ _ _ (PyList r) r) by auto.
    cbn [init cache model_name list_objects]. by rewrite lookup_empty. }
  set (w1 := mkWorld _ _ _ _ _ _).
  rewrite run_cons. change (run [] ?w) with w. cbn [exec]. unfold add_counter.
  rewrite bind_get_req.
  rewrite (resolved_get_req idx req_id w1)
    by (by rewrite (resolved_frame idx (init rids mn lists) w1)).
  rewrite (add_or_update_closed _ _ _ _ _ (PyList r) r) by auto.
  subst w1. cbn [cache model_name list_objects store metric_objects].
  rewrite items_of_insert, lookup_insert_ne, lookup_empty.
  - cbn. rewrite items_of_insert, <- app_assoc. done.
  - intros Heq. symmetry in Heq. revert Heq. apply cache_key_longer.
    by destruct req_id.
Qed.

(** X12. The separator is not escaped: [add_metric] with the name [name]
    and the unit [s-u], and [add_metric] with the name [name-s] and the unit
    [u], have the same key.  The second call appends nothing and constructs
    nothing; when it returns it has updated the [Metric] of the first. *)
Theorem separator_collision name s u value1 value2 idx
    (dimensions1 dimensions2 : PyObj) w :
  let c1 := AddMetric Value name value1 idx (Some (s +:+ "-" +:+ u)) dimensions1 in
  let c2 := AddMetric Value (name +:+ "-" +:+ s) value2 idx (Some u) dimensions2 in
  call_key c2 (snd (exec c1 w)) = call_key c1 w /\
  store (run [c1; c2] w) = store (snd (exec c1 w)) /\
  length (metric_objects (run [c1; c2] w)) = length (metric_objects (snd (exec c1 w))).
Proof.
  intros c1 c2.
  assert (call_key c2 (snd (exec c1 w)) = call_key c1 w) as Hkey.
  { destruct (exec_frame c1 w) as [Hr Hm]. revert Hr Hm.
    generalize (snd (exec c1 w)). intros w1 Hr Hm. subst c1 c2. cbn.
    rewrite (resolved_frame idx w w1 Hr). destruct (resolved idx w); [|done]. cbn.
    unfold key_of. by rewrite Hm, cache_key_shift. }
  split; [done|]. by apply same_key_no_append.
Qed.

(** X13. Counters of two different names for one index are never merged,
    whatever the names hold: after the two calls, in any world that calls
    have led to, each name has its own element of [store]. *)
Theorem names_kept_apart rids mn lists (cs : list (Call Value))
    name1 name2 value1 value2 idx req_id :
  let w := run cs (init rids mn lists) in
  let w' := run [AddCounter Value name1 value1 idx PyNone;
                 AddCounter Value name2 value2 idx PyNone] w in
  resolved idx w = Some req_id ->
  name1 <> name2 ->
  exists metric1 metric2,
    cache w' !! cache_key name1 "count" req_id (tags req_id mn) = Some metric1 /\
    cache w' !! cache_key name2 "count" req_id (tags req_id mn) = Some metric2 /\
    metric1 ∈ store w' /\ metric2 ∈ store w' /\ metric1 <> metric2.
Proof.
  intros w w' Hreq Hne. subst w'.
  pose proof (consistent_run cs _ [] (consistent_init rids mn lists)) as Hw.
  fold w in Hw.
  assert (model_name w = mn) as Hmn by apply (run_frame cs (init rids mn lists)).
  destruct (exec_frame (AddCounter Value name1 value1 idx PyNone) w) as [Hr Hm].
  eapply distinct_keys_distinct_metrics; [exact Hw| | |].
  - cbn. rewrite Hreq. cbn. unfold key_of. by rewrite Hmn.
  - revert Hr Hm. generalize (snd (exec (AddCounter Value name1 value1 idx PyNone) w)).
    intros w1 Hr Hm. cbn. rewrite (resolved_frame idx w w1 Hr), Hreq. cbn.
    unfold key_of. by rewrite Hm, Hmn.
  - intros Heq. by apply Hne, (cache_key_name_inj _ _ _ _ _ Heq).
Qed.


Lemma add_or_update_none_lists name value req_id unit metrics_method w (r : nat) :
  r ∈ dom (list_objects w) ->
  list_objects (snd (_add_or_update name value req_id unit metrics_method PyNone w)) !! r
    = list_objects w !! r.
Proof.
  intros Hr.
  assert (fresh (dom (list_objects w)) <> r) as Hne.
  { intros <-. by apply (is_fresh (dom (list_objects w))). }
  destruct unit as [u|].
  - rewrite add_or_update_none. cbn. destruct (cache w !! _); cbn;
      by rewrite lookup_insert_ne.
  - rewrite add_or_update_no_unit. cbn. by rewrite lookup_insert_ne.
Qed.

(** X14. The only list object that a call ever writes is the one passed to
    [add_counter] as [dimensions].  A list passed to any of the other five
    operations, and every other list that exists, is after the call what it
    was before. *)
Theorem lists_untouched (c : Call Value) w (r : nat) :
  r ∈ dom (list_objects w) ->
  (forall name value idx, c <> AddCounter Value name value idx (PyList r)) ->
  list_objects (snd (exec c w)) !! r = list_objects w !! r.
Proof.
  intros Hr Hc. destruct c; cbn; unfold add_counter, add_time, add_size,
    add_percent, add_error, add_metric.
  all: repeat case_bool_decide; try done.
  all: rewrite ?bind_get_req.
  all: try (destruct (fst (_get_req idx w)) as [req_id|]; [|done]).
  all: try (by apply add_or_update_none_lists).
  destruct dimensions as [| | | |r0].
  - by apply add_or_update_none_lists.
  - by rewrite add_or_update_rejects.
  - by rewrite add_or_update_rejects.
  - by rewrite add_or_update_rejects.
  - rewrite add_or_update_lists, lookup_insert_ne; [done|].
    intros ->. by apply (Hc name value idx).
Qed.

End Properties.

(** ** The collaborators at work: evaluation on concrete stores *)

Example first_occurrences_order :
  first_occurrences ["a"; "b"; "a"; "c"; "b"] = ["a"; "b"; "c"].
Proof. reflexivity. Qed.

(** The scenario of the specification: two counts for the first request and
    one for the second give two metrics, with values 2 and 1. *)
Example requests_counted :
  let w := run Z sample_update sample_str
             [AddCounter Z "Requests" 1%Z (Some 0%Z) PyNone;
              AddCounter Z "Requests" 1%Z (Some 0%Z) PyNone;
              AddCounter Z "Requests" 1%Z (Some 1%Z) PyNone]
             (init (ReqDict [(0%Z, "r1"); (1%Z, "r2")]) "m" ∅) in
  store w = [0; 1] /\
  map m_value (metric_objects w) = [2%Z; 1%Z] /\
  map m_request_id (metric_objects w) = [Some "r1"; Some "r2"].
Proof. vm_compute. auto. Qed.

(** A list that the caller passes twice is one object: [add_counter] appends
    to it at every call, so the second call has another key, and the two
    [Metric] objects share the list. *)
Example shared_dimension_list :
  let w := run Z sample_update sample_str
             [AddCounter Z "hits" 5%Z (Some 0%Z) (PyList 0);
              AddCounter Z "hits" 7%Z (Some 0%Z) (PyList 0)] two_orders in
  store w = [0; 1] /\
  map m_dimensions (metric_objects w) = [0; 0] /\
  length (items_of (list_objects w) 0) = 6.
Proof. vm_compute. auto. Qed.

(** [get_req_mapping] (C7) at the batch of the specification: without an
    index the request id is the join of all ids. *)
Lemma get_req_mapping_witness :
  request_ids (@batch Z) = ReqDict [(0%Z, "A"); (1%Z, "B")] /\
  _get_req None (@batch Z) = (Ret (Some "A,B"), batch).
Proof.
  split; [reflexivity|].
  apply (get_req_mapping [(0%Z, "A"); (1%Z, "B")] None (@batch Z) eq_refl).
  left. reflexivity.
Defined.

(** C3, as stated, fails: with a string for [request_ids] and the index 0 the
    resolution raises instead of returning the string. *)
Lemma get_req_string_int_idx :
  fst (_get_req (Some 0%Z) (init (ReqStr "req-1") "resnet" ∅ : World Z))
    <> Ret (Some "req-1").
Proof. vm_compute. discriminate. Qed.

(** [get_req_string] (C3) at the same store: without an index the string
    is the request id. *)
Lemma get_req_string_witness :
  request_ids (init (ReqStr "req-1") "resnet" ∅ : World Z) = ReqStr "req-1" /\
  _get_req None (init (ReqStr "req-1") "resnet" ∅ : World Z)
    = (Ret (Some "req-1"), init (ReqStr "req-1") "resnet" ∅).
Proof.
  split; [reflexivity|].
  exact (proj1 (get_req_string sample_update sample_str "req-1"
                  (init (ReqStr "req-1") "resnet" ∅) eq_refl)).
Defined.

(** The two orders of k1=v1 and k2=v2 give two elements of [store] when
    they are passed to [add_counter]. *)
Example two_orders_counted :
  exists k1 k2 metric1 metric2,
    let w := run Z sample_update sample_str
               [AddCounter Z "hits" 5%Z (Some 0%Z) (PyList 0);
                AddCounter Z "hits" 7%Z (Some 0%Z) (PyList 1)] two_orders in
    cache w !! k1 = Some metric1 /\ cache w !! k2 = Some metric2 /\
    metric1 ∈ store w /\ metric2 ∈ store w /\ metric1 <> metric2.
Proof.
  apply (add_counter_order_sensitive sample_update sample_str
           "hits" 5%Z 7%Z (Some 0%Z) (Some "A") 0 1 two_orders []).
  - apply consistent_init.
  - reflexivity.
  - discriminate.
  - reflexivity.
  - vm_compute. discriminate.
  - vm_compute. repeat constructor.
Defined.

(** ** The further properties at concrete stores *)

(** [add_counter_rejects_non_list] (X2): an integer as [dimensions]. *)
Lemma add_counter_rejects_non_list_witness :
  PyInt 7 <> PyNone /\
  add_counter Z sample_update sample_str "hits" 1%Z (Some 0%Z) (PyInt 7) batch
    = (Raise (ValueError dimensions_msg), batch).
Proof.
  split; [discriminate|].
  apply (add_counter_rejects_non_list sample_update sample_str
           "hits" 1%Z (Some 0%Z) (PyInt 7) batch).
  - discriminate.
  - discriminate.
  - vm_compute. eexists. reflexivity.
Defined.

(** [add_counter_appends_to_list] (X3): the caller's list 0 after one call. *)
Lemma add_counter_appends_to_list_witness :
  resolved (Some 0%Z) (@two_orders Z) = Some (Some "A") /\
  list_objects (snd (add_counter Z sample_update sample_str "hits" 1%Z (Some 0%Z)
                       (PyList 0) two_orders)) !! 0
    = Some [mkDimension "k1" "v1"; mkDimension "k2" "v2";
            mkDimension "ModelName" "resnet"; mkDimension "Level" "Model"].
Proof.
  split; [reflexivity|].
  destruct (add_counter_appends_to_list sample_update sample_str
              "hits" 1%Z (Some 0%Z) (Some "A") 0 two_orders eq_refl) as (_ & -> & _).
  reflexivity.
Defined.

(** [no_request_ids] (X1): a store made with [None] for the request ids. *)
Lemma no_request_ids_witness :
  request_ids (init ReqNone "resnet" ∅ : World Z) = ReqNone /\
  _get_req (Some 3%Z) (init ReqNone "resnet" ∅ : World Z)
    = (Ret None, init ReqNone "resnet" ∅).
Proof.
  split; [reflexivity|].
  apply (no_request_ids sample_update sample_str (init ReqNone "resnet" ∅) eq_refl).
Defined.

(** [other_metrics_untouched] (X8): a count for b leaves the [Metric] of a. *)
Lemma other_metrics_untouched_witness :
  let w := run Z sample_update sample_str
             [AddCounter Z "a" 1%Z (Some 0%Z) PyNone] batch in
  let m := mkMetric "a" 1%Z (Some "count") 0 (Some "A") (PyStr "counter") in
  metric_objects w !! 0 = Some m /\
  metric_objects (snd (exec Z sample_update sample_str
                         (AddCounter Z "b" 5%Z (Some 0%Z) PyNone) w)) !! 0 = Some m.
Proof.
  split; [reflexivity|].
  apply (other_metrics_untouched sample_update sample_str).
  - reflexivity.
  - intros k Hk. vm_compute in Hk. injection Hk as <-. vm_compute. discriminate.
Defined.


(** [counter_accumulates] (X10): three requests counted one by one. *)
Lemma counter_accumulates_witness :
  resolved (Some 0%Z) (@batch Z) = Some (Some "A") /\
  map m_value
    (metric_objects
       (run Z sample_update sample_str
          (map (fun v => AddCounter Z "Requests" v (Some 0%Z) PyNone) [1; 1; 1]%Z)
          batch)) = [3%Z].
Proof.
  split; [reflexivity|].
  destruct (counter_accumulates sample_update sample_str
              "Requests" 1%Z [1; 1]%Z (Some 0%Z) (Some "A") batch eq_refl eq_refl)
    as (_ & _ & ->).
  reflexivity.
Defined.

(** [same_list_twice] (X11): one list with one dimension, passed twice. *)
Lemma same_list_twice_witness :
  resolved (Some 0%Z)
    (init (ReqDict [(0%Z, "A")]) "resnet" {[0 := [mkDimension "k1" "v1"]]} : World Z)
    = Some (Some "A") /\
  store (run Z sample_update sample_str
           [AddCounter Z "hits" 1%Z (Some 0%Z) (PyList 0);
            AddCounter Z "hits" 1%Z (Some 0%Z) (PyList 0)]
           (init (ReqDict [(0%Z, "A")]) "resnet" {[0 := [mkDimension "k1" "v1"]]}))
    = [0; 1].
Proof.
  split; [reflexivity|].
  apply (same_list_twice sample_update sample_str
           (ReqDict [(0%Z, "A")]) "resnet" {[0 := [mkDimension "k1" "v1"]]}
           "hits" 1%Z 1%Z (Some 0%Z) (Some "A") 0 eq_refl).
Defined.

(** [names_kept_apart] (X13): the counters a and b on a new store. *)
Lemma names_kept_apart_witness :
  resolved (Some 0%Z) (@batch Z) = Some (Some "A") /\
  "a" <> "b" /\
  exists metric1 metric2,
    let w := run Z sample_update sample_str
               [AddCounter Z "a" 1%Z (Some 0%Z) PyNone;
                AddCounter Z "b" 1%Z (Some 0%Z) PyNone] batch in
    cache w !! "a-count-A-ModelName:resnet-Level:Model" = Some metric1 /\
    cache w !! "b-count-A-ModelName:resnet-Level:Model" = Some metric2 /\
    metric1 ∈ store w /\ metric2 ∈ store w /\ metric1 <> metric2.
Proof.
  split; [reflexivity|]. split; [discriminate|].
  apply (names_kept_apart sample_update sample_str
           (ReqDict [(0%Z, "A"); (1%Z, "B")]) "resnet" ∅ []
           "a" "b" 1%Z 1%Z (Some 0%Z) (Some "A")).
  - reflexivity.
  - discriminate.
Defined.

(** [lists_untouched] (X14): [add_time] is given the list 0 and leaves it. *)
Lemma lists_untouched_witness :
  list_objects (snd (exec Z sample_update sample_str
                       (AddTime Z "lat" 5%Z (Some 0%Z) (Some "ms") (PyList 0))
                       two_orders)) !! 0
    = Some [mkDimension "k1" "v1"; mkDimension "k2" "v2"].
Proof.
  rewrite (lists_untouched sample_update sample_str
             (AddTime Z "lat" 5%Z (Some 0%Z) (Some "ms") (PyList 0)) two_orders 0).
  - reflexivity.
  - apply elem_of_dom. eexists. reflexivity.
  - discriminate.
Defined.
